(** * openmc_cad_adapter: the Cubit journal emitted for OpenMC surfaces

    A shallow embedding of [src/openmc_cad_adapter/surfaces.py].  Every class
    of the Python module is a Rocq module of the same name; the method
    [to_cubit_surface_inner] of a class is the definition of that name in its
    module.  Journal commands are strings, built piece by piece as the
    f-strings of the source build them.  Python floats are IEEE binary64
    numbers ([PrimFloat.float]).  The process-wide id counter of
    [cubit_util] is threaded explicitly, and Python exceptions are an
    explicit result. *)

From Stdlib Require Import String Ascii List ZArith Bool Arith Lia.
From Stdlib Require Import PrimFloat FloatOps SpecFloat FloatAxioms.
From Stdlib Require Import DecimalString DecimalNat.
Import ListNotations.
Local Open Scope string_scope.

(** ** Python values and control *)

(** The exceptions the module can raise. *)
Inductive exn : Type :=
| ValueError (msg : string)
| NameError (name : string)
| NotImplementedError (msg : string).

Inductive result (A : Type) : Type :=
| Return (a : A)
| Raise (e : exn).
Arguments Return {A} a.
Arguments Raise {A} e.

(** A computation reads and advances the id counter; the counter survives
    an exception, as a module-level Python global does. *)
Definition M (A : Type) : Type := nat -> result A * nat.

Definition ret {A} (a : A) : M A := fun n => (Return a, n).

Definition raise {A} (e : exn) : M A := fun n => (Raise e, n).

Definition bind {A B} (m : M A) (k : A -> M B) : M B :=
  fun n =>
    match m n with
    | (Return a, n') => k a n'
    | (Raise e, n') => (Raise e, n')
    end.

Notation "x <- m ;; k" := (bind m (fun x => k))
  (at level 61, m at next level, right associativity).
Notation "' pat <- m ;; k" := (bind m (fun x => match x with pat => k end))
  (at level 61, pat pattern, m at next level, right associativity).

(** [cmds.append(c)] on a Python list. *)
Definition append {A} (cmds : list A) (c : A) : list A := (cmds ++ [c])%list.

(** [s[k:]] on a Python string: what is left after the first [k]
    characters, nothing when there are fewer. *)
Fixpoint py_slice_from (k : nat) (s : string) : string :=
  match k, s with
  | O, _ => s
  | S k', String _ s' => py_slice_from k' s'
  | S _, EmptyString => EmptyString
  end.

(** [" " * k] for a Python int [k]: no character when [k] is negative. *)
Definition py_spaces (k : Z) : string :=
  string_of_list_ascii (List.repeat " "%char (Z.to_nat k)).

(** [indent(indent_size)]. *)
Definition indent (indent_size : Z) : string := py_spaces (2 * indent_size).

(** The double quote character of a journal line. *)
Definition dquote : string := String (ascii_of_nat 34) EmptyString.

(** A number handed to a helper is a float attribute or an int literal of
    the source ([0] in [move(wid, self.x0, self.y0, 0, cad_cmds)]). *)
Inductive pynum : Type :=
| PInt (z : Z)
| PFloat (f : float).

(** [x != 0]. *)
Definition py_ne0 (x : pynum) : bool :=
  match x with
  | PInt z => negb (z =? 0)%Z
  | PFloat f => negb (f =? 0)%float
  end.

(** A three-component sequence ([extents], [inner_world], a numpy vector). *)
Definition vec3 : Type := (float * float * float)%type.

Definition at0 (v : vec3) : float := fst (fst v).
Definition at1 (v : vec3) : float := snd (fst v).
Definition at2 (v : vec3) : float := snd v.

(** The half-space node: the adapter reads only [node.side]. *)
Record Node : Type := { side : string }.

(** Attributes every surface carries besides its coefficients. *)
Record Meta : Type := {
  boundary_type : string;
  albedo : float;
  name : string;
  surface_id : Z
}.

(** ** What lies outside the module

    [surfaces.py] imports [emit_get_last_id] from [cubit_util] and [move]
    and [rotate] from [geom_util], and calls [math.acos]; an f-string field
    prints a float the way Python does.  What the journal owes to them and
    the source does not fix is one interface: every statement below holds
    for any implementation of it. *)
Class Runtime : Type := {
  (* [str(x)] of a float, as an f-string field renders it *)
  float_str : float -> string;
  (* [math.acos]; [None] is its [ValueError] (math domain error) *)
  acos : float -> option float;
  (* the handle [emit_get_last_id] returns when the counter stands at [n] *)
  idname : nat -> string;
  (* the lines [emit_get_last_id(type, cmds)] appends for a handle; the
     type is [None] when the caller leaves it to the default *)
  capture : option string -> string -> list string;
  (* the lines [rotate(id, dx, dy, dz, cmds)] appends *)
  rotate_cmds : string -> pynum -> pynum -> pynum -> list string;
  (* [x.dot(y)] of two three-component float arrays, which numpy hands to
     its BLAS: in which order the products are summed, and where the sum is
     rounded, is the library's *)
  np_dot : vec3 -> vec3 -> float
}.

Section Helpers.
Context {rt : Runtime}.

(** An f-string field holding a number. *)
Definition py_str (x : pynum) : string :=
  match x with
  | PInt z => NilZero.string_of_int (Z.to_int z)
  | PFloat f => float_str f
  end.

(** Modelled from the spec: [cubit_util.emit_get_last_id] is not under
    src/.  The spec's EntityIdTracker is called right after a creation
    command is appended, returns the id the kernel assigns, and rests on a
    single monotonically increasing counter used once per call.  The list
    it is handed is the caller's own, so what it appends is returned. *)
Definition emit_get_last_id (type : option string) (cmds : list string)
  : M (string * list string) :=
  fun n => (Return (idname n, (cmds ++ capture type (idname n))%list), S n).

(** Modelled from the spec: [geom_util.move] is not under src/.  The spec
    has a surface centred at the origin emit no move command although the
    source calls [move] unconditionally; the command text is the one
    [CADPlane] and the cones write inline. *)
Definition move (id : string) (x y z : pynum) (cmds : list string) : list string :=
  if py_ne0 x || py_ne0 y || py_ne0 z
  then append cmds ("body { " ++ id ++ " } move "
                      ++ py_str x ++ " " ++ py_str y ++ " " ++ py_str z)
  else cmds.

(** Modelled from the spec: [geom_util.rotate] is not under src/.  The spec
    calls it a stateless helper that produces rotate command fragments for
    an entity id and a rotation axis; its lines are left to the interface. *)
Definition rotate (id : string) (x y z : pynum) (cmds : list string) : list string :=
  (cmds ++ rotate_cmds id x y z)%list.

(** [np.linalg.norm] of a vector: the square root of its dot product with
    itself. *)
Definition np_norm (v : vec3) : float := PrimFloat.sqrt (np_dot v v).

(** [math.sqrt]: a negative argument is a math domain error. *)
Definition py_sqrt (x : float) : M float :=
  if (x <? 0)%float then raise (ValueError "math domain error")
  else ret (PrimFloat.sqrt x).

(** [math.acos]. *)
Definition py_acos (x : float) : M float :=
  match acos x with
  | Some t => ret t
  | None => raise (ValueError "math domain error")
  end.
End Helpers.

(** [math.degrees]: CPython multiplies by [180.0 / pi]. *)
Definition pi : float := 0x1.921fb54442d18p+1%float.
Definition degrees (x : float) : float := (x * (180 / pi))%float.

(** [math.isclose(a, b, abs_tol=abs_tol)] with the default [rel_tol=1e-09],
    as CPython computes it. *)
Definition rel_tol : float := 0x1.12e0be826d695p-30%float.
Definition isclose (a b abs_tol : float) : bool :=
  if (a =? b)%float then true
  else if is_infinity a || is_infinity b then false
  else
    let diff := abs (b - a) in
    (diff <=? abs (rel_tol * b))%float
    || (diff <=? abs (rel_tol * a))%float
    || (diff <=? abs_tol)%float.

(** The tolerance [1e-6] of [CADPlane]: the binary64 number the literal
    denotes. *)
Definition abs_tol_1e6 : float := 0x1.0c6f7a0b5ed8dp-20%float.

(** numpy's elementwise operations on three-component float arrays. *)
Definition np_scale (k : float) (v : vec3) : vec3 :=
  ((k * at0 v)%float, (k * at1 v)%float, (k * at2 v)%float).

Definition np_div (v : vec3) (k : float) : vec3 :=
  ((at0 v / k)%float, (at1 v / k)%float, (at2 v / k)%float).

Definition np_cross (u v : vec3) : vec3 :=
  ((at1 u * at2 v - at2 u * at1 v)%float,
   (at2 u * at0 v - at0 u * at2 v)%float,
   (at0 u * at1 v - at1 u * at0 v)%float).

(** [np.maximum] keeps a NaN. *)
Definition fmax (a b : float) : float :=
  if is_nan a then a else if is_nan b then b
  else if (a <? b)%float then b else a.

Definition np_max (v : vec3) : float := fmax (fmax (at0 v) (at1 v)) (at2 v).

(** ** Planes *)

Module CADPlane.
Record t : Type := { a : float; b : float; c : float; d : float; meta : Meta }.

Definition lreverse (node : Node) : string :=
  if side node =? "-" then EmptyString else "reverse".

Definition from_openmc_surface_inner (plane : t) : t :=
  {| a := a plane; b := b plane; c := c plane; d := d plane;
     meta := {| boundary_type := boundary_type (meta plane);
                albedo := albedo (meta plane);
                name := name (meta plane);
                surface_id := surface_id (meta plane) |} |}.

Section Emit.
Context {rt : Runtime}.

Definition to_cubit_surface_inner (self : t) (ent_type : string) (node : Node)
  (extents : vec3) (inner_world : option vec3) (hex : bool)
  : M (string * list string) :=
  let cmds := [] in
  let n := (a self, b self, c self) in
  let distance := (d self / np_norm n)%float in
  let max_extent := np_max extents in
  let cmds := append cmds
    ("brick x " ++ float_str (2 * max_extent)
       ++ " y " ++ float_str (2 * max_extent)
       ++ " z " ++ float_str (2 * max_extent)) in
  '(ids, cmds) <- emit_get_last_id (Some ent_type) cmds ;;
  let cmds := append cmds
    ("body { " ++ ids ++ " } move 0.0 0.0 " ++ float_str (- max_extent)) in
  let nhat := np_div n (np_norm n) in
  let rhat := (0, 0, 1)%float in
  radians <- py_acos (np_dot nhat rhat) ;;
  let angle := degrees radians in
  let cmds :=
    if negb (isclose angle 0 abs_tol_1e6) then
      let rot_axis := np_cross rhat nhat in
      let rot_axis := np_div rot_axis (np_norm rot_axis) in
      let axis := float_str (at0 rot_axis) ++ " " ++ float_str (at1 rot_axis)
                    ++ " " ++ float_str (at2 rot_axis) in
      append cmds
        ("Rotate body { " ++ ids ++ " } about 0 0 0 direction " ++ axis
           ++ " Angle " ++ float_str angle)
    else cmds in
  let tvec := np_scale distance nhat in
  let cmds := append cmds
    ("body { " ++ ids ++ " } move " ++ float_str (at0 tvec)
       ++ " " ++ float_str (at1 tvec) ++ " " ++ float_str (at2 tvec)) in
  let cmds := append cmds
    ("brick x " ++ float_str (at0 extents) ++ " y " ++ float_str (at1 extents)
       ++ " z " ++ float_str (at2 extents)) in
  '(wid, cmds) <- emit_get_last_id (Some ent_type) cmds ;;
  (* if positive half space we subtract the cutter block from the world *)
  if negb (side node =? "-") then
    ret (wid, append cmds
                ("subtract body { " ++ ids ++ " } from body { " ++ wid ++ " }"))
  (* if negative half space we intersect the cutter block with the world *)
  else
    ret (wid, append cmds ("intersect body { " ++ ids ++ " } { " ++ wid ++ " }")).
End Emit.
End CADPlane.

Module CADXPlane.
Record t : Type := { x0 : float; meta : Meta }.

Definition reverse (node : Node) : string :=
  if side node =? "-" then "reverse" else EmptyString.

Definition from_openmc_surface_inner (plane : t) : t :=
  {| x0 := x0 plane;
     meta := {| boundary_type := boundary_type (meta plane);
                albedo := albedo (meta plane);
                name := name (meta plane);
                surface_id := surface_id (meta plane) |} |}.

Section Emit.
Context {rt : Runtime}.

Definition to_cubit_surface_inner (self : t) (ent_type : string) (node : Node)
  (extents : vec3) (inner_world : option vec3) (hex : bool)
  : M (string * list string) :=
  let cad_cmds := [] in
  let cad_cmds := append cad_cmds
    ("brick x " ++ float_str (at0 extents) ++ " y " ++ float_str (at1 extents)
       ++ " z " ++ float_str (at2 extents)) in
  '(ids, cad_cmds) <- emit_get_last_id (Some ent_type) cad_cmds ;;
  let cad_cmds := append cad_cmds
    ("section body { " ++ ids ++ " } with xplane offset "
       ++ float_str (x0 self) ++ " " ++ reverse node) in
  ret (ids, cad_cmds).
End Emit.
End CADXPlane.

Module CADYPlane.
Record t : Type := { y0 : float; meta : Meta }.

Definition reverse (node : Node) : string :=
  if side node =? "-" then "reverse" else EmptyString.

Definition from_openmc_surface_inner (plane : t) : t :=
  {| y0 := y0 plane;
     meta := {| boundary_type := boundary_type (meta plane);
                albedo := albedo (meta plane);
                name := name (meta plane);
                surface_id := surface_id (meta plane) |} |}.

Section Emit.
Context {rt : Runtime}.

Definition to_cubit_surface_inner (self : t) (ent_type : string) (node : Node)
  (extents : vec3) (inner_world : option vec3) (hex : bool)
  : M (string * list string) :=
  let cad_cmds := [] in
  let cad_cmds := append cad_cmds
    ("brick x " ++ float_str (at0 extents) ++ " y " ++ float_str (at1 extents)
       ++ " z " ++ float_str (at2 extents)) in
  '(ids, cad_cmds) <- emit_get_last_id (Some ent_type) cad_cmds ;;
  let cad_cmds := append cad_cmds
    ("section body { " ++ ids ++ " } with yplane offset "
       ++ float_str (y0 self) ++ " " ++ reverse node) in
  ret (ids, cad_cmds).
End Emit.
End CADYPlane.

Module CADZPlane.
Record t : Type := { z0 : float; meta : Meta }.

Definition reverse (node : Node) : string :=
  if side node =? "-" then "reverse" else EmptyString.

Definition from_openmc_surface_inner (plane : t) : t :=
  {| z0 := z0 plane;
     meta := {| boundary_type := boundary_type (meta plane);
                albedo := albedo (meta plane);
                name := name (meta plane);
                surface_id := surface_id (meta plane) |} |}.

Section Emit.
Context {rt : Runtime}.

Definition to_cubit_surface_inner (self : t) (ent_type : string) (node : Node)
  (extents : vec3) (inner_world : option vec3) (hex : bool)
  : M (string * list string) :=
  let cad_cmds := [] in
  let cad_cmds := append cad_cmds
    ("brick x " ++ float_str (at0 extents) ++ " y " ++ float_str (at1 extents)
       ++ " z " ++ float_str (at2 extents)) in
  '(ids, cad_cmds) <- emit_get_last_id (Some ent_type) cad_cmds ;;
  let cad_cmds := append cad_cmds
    ("section body { " ++ ids ++ " } with zplane offset "
       ++ float_str (z0 self) ++ " " ++ reverse node) in
  ret (ids, cad_cmds).
End Emit.
End CADZPlane.

(** ** Cylinders *)

Module CADCylinder.
Record t : Type := {
  r : float; x0 : float; y0 : float; z0 : float;
  dx : float; dy : float; dz : float; meta : Meta
}.

Definition from_openmc_surface_inner (cyl : t) : t :=
  {| r := r cyl; x0 := x0 cyl; y0 := y0 cyl; z0 := z0 cyl;
     dx := dx cyl; dy := dy cyl; dz := dz cyl;
     meta := {| boundary_type := boundary_type (meta cyl);
                albedo := albedo (meta cyl);
                name := name (meta cyl);
                surface_id := surface_id (meta cyl) |} |}.

Section Emit.
Context {rt : Runtime}.

(** The method first prints a trace line to standard output, which is no
    part of the journal.  In the branch without an inner world the source
    reads a name [w] that no scope binds. *)
Definition to_cubit_surface_inner (self : t) (ent_type : string) (node : Node)
  (extents : vec3) (inner_world : option vec3) (hex : bool)
  : M (string * list string) :=
  let cad_cmds := [] in
  let h := match inner_world with Some iw => at2 iw | None => at2 extents end in
  let cad_cmds := append cad_cmds
    ("cylinder height " ++ float_str h ++ " radius " ++ float_str (r self)) in
  '(ids, cad_cmds) <- emit_get_last_id None cad_cmds ;;
  if negb (side node =? "-") then
    '(wid, cad_cmds) <-
      match inner_world with
      | Some iw =>
          if hex then
            let cad_cmds := append cad_cmds
              ("create prism height " ++ float_str (at2 iw)
                 ++ " sides 6 radius " ++ float_str (at0 iw / 2)) in
            '(wid, cad_cmds) <- emit_get_last_id (Some ent_type) cad_cmds ;;
            ret (wid, append cad_cmds
                        ("rotate body { " ++ wid ++ " } about z angle 30"))
          else
            let cad_cmds := append cad_cmds
              ("brick x " ++ float_str (at0 iw) ++ " y " ++ float_str (at1 iw)
                 ++ " z " ++ float_str (at2 iw)) in
            emit_get_last_id (Some ent_type) cad_cmds
      | None => raise (NameError "w")
      end ;;
    let cad_cmds := append cad_cmds
      ("subtract body { " ++ ids ++ " } from body { " ++ wid ++ " }") in
    let cad_cmds :=
      rotate wid (PFloat (dx self)) (PFloat (dy self)) (PFloat (dz self)) cad_cmds in
    let cad_cmds :=
      move wid (PFloat (x0 self)) (PFloat (y0 self)) (PFloat (z0 self)) cad_cmds in
    ret (wid, cad_cmds)
  else
    let cad_cmds :=
      rotate ids (PFloat (dx self)) (PFloat (dy self)) (PFloat (dz self)) cad_cmds in
    let cad_cmds :=
      move ids (PFloat (x0 self)) (PFloat (y0 self)) (PFloat (z0 self)) cad_cmds in
    ret (ids, cad_cmds).
End Emit.
End CADCylinder.

Module CADXCylinder.
Record t : Type := { r : float; y0 : float; z0 : float; meta : Meta }.

Definition from_openmc_surface_inner (cyl : t) : t :=
  {| r := r cyl; y0 := y0 cyl; z0 := z0 cyl;
     meta := {| boundary_type := boundary_type (meta cyl);
                albedo := albedo (meta cyl);
                name := name (meta cyl);
                surface_id := surface_id (meta cyl) |} |}.

Section Emit.
Context {rt : Runtime}.

Definition to_cubit_surface_inner (self : t) (ent_type : string) (node : Node)
  (extents : vec3) (inner_world : option vec3) (hex : bool)
  : M (string * list string) :=
  let cad_cmds := [] in
  let h := match inner_world with Some iw => at0 iw | None => at0 extents end in
  let cad_cmds := append cad_cmds
    ("cylinder height " ++ float_str h ++ " radius " ++ float_str (r self)) in
  '(ids, cad_cmds) <- emit_get_last_id (Some ent_type) cad_cmds ;;
  let cad_cmds := append cad_cmds
    ("rotate body { " ++ ids ++ " } about y angle 90") in
  if negb (side node =? "-") then
    '(wid, cad_cmds) <-
      match inner_world with
      | Some iw =>
          if hex then
            let cad_cmds := append cad_cmds
              ("create prism height " ++ float_str (at2 iw)
                 ++ " sides 6 radius " ++ float_str (at0 iw / 2)) in
            '(wid, cad_cmds) <- emit_get_last_id (Some ent_type) cad_cmds ;;
            let cad_cmds := append cad_cmds
              ("rotate body { " ++ wid ++ " } about z angle 30") in
            ret (wid, append cad_cmds
                        ("rotate body { " ++ wid ++ " } about y angle 90"))
          else
            let cad_cmds := append cad_cmds
              ("brick x " ++ float_str (at0 iw) ++ " y " ++ float_str (at1 iw)
                 ++ " z " ++ float_str (at2 iw)) in
            emit_get_last_id (Some ent_type) cad_cmds
      | None =>
          let cad_cmds := append cad_cmds
            ("brick x " ++ float_str (at0 extents) ++ " y "
               ++ float_str (at1 extents) ++ " z " ++ float_str (at2 extents)) in
          emit_get_last_id (Some ent_type) cad_cmds
      end ;;
    let cad_cmds := append cad_cmds
      ("subtract body { " ++ ids ++ " } from body { " ++ wid ++ " }") in
    let cad_cmds :=
      move wid (PInt 0) (PFloat (y0 self)) (PFloat (z0 self)) cad_cmds in
    ret (wid, cad_cmds)
  else
    let cad_cmds :=
      move ids (PInt 0) (PFloat (y0 self)) (PFloat (z0 self)) cad_cmds in
    ret (ids, cad_cmds).
End Emit.
End CADXCylinder.

Module CADYCylinder.
Record t : Type := { r : float; x0 : float; z0 : float; meta : Meta }.

Definition from_openmc_surface_inner (cyl : t) : t :=
  {| r := r cyl; x0 := x0 cyl; z0 := z0 cyl;
     meta := {| boundary_type := boundary_type (meta cyl);
                albedo := albedo (meta cyl);
                name := name (meta cyl);
                surface_id := surface_id (meta cyl) |} |}.

Section Emit.
Context {rt : Runtime}.

Definition to_cubit_surface_inner (self : t) (ent_type : string) (node : Node)
  (extents : vec3) (inner_world : option vec3) (hex : bool)
  : M (string * list string) :=
  let cad_cmds := [] in
  let h := match inner_world with Some iw => at1 iw | None => at1 extents end in
  let cad_cmds := append cad_cmds
    ("cylinder height " ++ float_str h ++ " radius " ++ float_str (r self)) in
  '(ids, cad_cmds) <- emit_get_last_id (Some ent_type) cad_cmds ;;
  let cad_cmds := append cad_cmds
    ("rotate body { " ++ ids ++ " } about x angle 90") in
  if negb (side node =? "-") then
    '(wid, cad_cmds) <-
      match inner_world with
      | Some iw =>
          if hex then
            let cad_cmds := append cad_cmds
              ("create prism height " ++ float_str (at2 iw)
                 ++ " sides 6 radius " ++ float_str (at0 iw / 2)) in
            '(wid, cad_cmds) <- emit_get_last_id (Some ent_type) cad_cmds ;;
            let cad_cmds := append cad_cmds
              ("rotate body { " ++ wid ++ " } about z angle 30") in
            ret (wid, append cad_cmds
                        ("rotate body { " ++ wid ++ " } about x angle 90"))
          else
            let cad_cmds := append cad_cmds
              ("brick x " ++ float_str (at0 iw) ++ " y " ++ float_str (at1 iw)
                 ++ " z " ++ float_str (at2 iw)) in
            emit_get_last_id (Some ent_type) cad_cmds
      | None =>
          let cad_cmds := append cad_cmds
            ("brick x " ++ float_str (at0 extents) ++ " y "
               ++ float_str (at1 extents) ++ " z " ++ float_str (at2 extents)) in
          emit_get_last_id (Some ent_type) cad_cmds
      end ;;
    let cad_cmds := append cad_cmds
      ("subtract body { " ++ ids ++ " } from body { " ++ wid ++ " }") in
    let cad_cmds :=
      move wid (PFloat (x0 self)) (PInt 0) (PFloat (z0 self)) cad_cmds in
    ret (wid, cad_cmds)
  else
    let cad_cmds :=
      move ids (PFloat (x0 self)) (PInt 0) (PFloat (z0 self)) cad_cmds in
    ret (ids, cad_cmds).
End Emit.
End CADYCylinder.

Module CADZCylinder.
Record t : Type := { r : float; x0 : float; y0 : float; meta : Meta }.

Definition from_openmc_surface_inner (cyl : t) : t :=
  {| r := r cyl; x0 := x0 cyl; y0 := y0 cyl;
     meta := {| boundary_type := boundary_type (meta cyl);
                albedo := albedo (meta cyl);
                name := name (meta cyl);
                surface_id := surface_id (meta cyl) |} |}.

Section Emit.
Context {rt : Runtime}.

Definition to_cubit_surface_inner (self : t) (ent_type : string) (node : Node)
  (extents : vec3) (inner_world : option vec3) (hex : bool)
  : M (string * list string) :=
  let cad_cmds := [] in
  let h := match inner_world with Some iw => at2 iw | None => at2 extents end in
  let cad_cmds := append cad_cmds
    ("cylinder height " ++ float_str h ++ " radius " ++ float_str (r self)) in
  '(ids, cad_cmds) <- emit_get_last_id (Some ent_type) cad_cmds ;;
  if negb (side node =? "-") then
    '(wid, cad_cmds) <-
      match inner_world with
      | Some iw =>
          if hex then
            let cad_cmds := append cad_cmds
              ("create prism height " ++ float_str (at2 iw)
                 ++ " sides 6 radius " ++ float_str (at0 iw / 2)) in
            '(wid, cad_cmds) <- emit_get_last_id (Some ent_type) cad_cmds ;;
            ret (wid, append cad_cmds
                        ("rotate body { " ++ wid ++ " } about z angle 30"))
          else
            let cad_cmds := append cad_cmds
              ("brick x " ++ float_str (at0 iw) ++ " y " ++ float_str (at1 iw)
                 ++ " z " ++ float_str (at2 iw)) in
            emit_get_last_id (Some ent_type) cad_cmds
      | None =>
          let cad_cmds := append cad_cmds
            ("brick x " ++ float_str (at0 extents) ++ " y "
               ++ float_str (at1 extents) ++ " z " ++ float_str (at2 extents)) in
          emit_get_last_id (Some ent_type) cad_cmds
      end ;;
    let cad_cmds := append cad_cmds
      ("subtract body { " ++ ids ++ " } from body { " ++ wid ++ " }") in
    let cad_cmds :=
      move wid (PFloat (x0 self)) (PFloat (y0 self)) (PInt 0) cad_cmds in
    ret (wid, cad_cmds)
  else
    let cad_cmds :=
      move ids (PFloat (x0 self)) (PFloat (y0 self)) (PInt 0) cad_cmds in
    ret (ids, cad_cmds).
End Emit.
End CADZCylinder.

(** ** Sphere *)

Module CADSphere.
Record t : Type := { r : float; x0 : float; y0 : float; z0 : float; meta : Meta }.

Definition from_openmc_surface_inner (sphere : t) : t :=
  {| r := r sphere; x0 := x0 sphere; y0 := y0 sphere; z0 := z0 sphere;
     meta := {| boundary_type := boundary_type (meta sphere);
                albedo := albedo (meta sphere);
                name := name (meta sphere);
                surface_id := surface_id (meta sphere) |} |}.

Section Emit.
Context {rt : Runtime}.

Definition to_cubit_surface_inner (self : t) (ent_type : string) (node : Node)
  (extents : vec3) (inner_world : option vec3) (hex : bool)
  : M (string * list string) :=
  let cad_cmds := [] in
  let cad_cmds := append cad_cmds ("sphere radius " ++ float_str (r self)) in
  '(ids, cad_cmds) <- emit_get_last_id (Some ent_type) cad_cmds ;;
  let cad_cmds :=
    move ids (PFloat (x0 self)) (PFloat (y0 self)) (PFloat (z0 self)) cad_cmds in
  if negb (side node =? "-") then
    let cad_cmds := append cad_cmds
      ("brick x " ++ float_str (at0 extents) ++ " y " ++ float_str (at1 extents)
         ++ " z " ++ float_str (at2 extents)) in
    '(wid, cad_cmds) <- emit_get_last_id (Some ent_type) cad_cmds ;;
    let cad_cmds := append cad_cmds
      ("subtract body { " ++ ids ++ " } from body { " ++ wid ++ " }") in
    let ids := wid in
    ret (ids, cad_cmds)
  else ret (ids, cad_cmds).
End Emit.
End CADSphere.

(** ** Cones *)

(** The general cone: recognised, not supported. *)
Module CADCone.
Definition msg : string := "General Cones are not yet supported".

Definition to_cubit_surface {A} (ent_type : string) (node : Node)
  (extents : vec3) (inner_world : option vec3) (hex : bool) : M A :=
  raise (NotImplementedError msg).

Definition from_openmc_surface {S A} (surface : S) : result A :=
  Raise (NotImplementedError msg).
End CADCone.

Module CADXCone.
Record t : Type := { x0 : float; y0 : float; z0 : float; r2 : float; meta : Meta }.

Definition from_openmc_surface_inner (surface : t) : t :=
  {| x0 := x0 surface; y0 := y0 surface; z0 := z0 surface; r2 := r2 surface;
     meta := {| boundary_type := boundary_type (meta surface);
                albedo := albedo (meta surface);
                name := name (meta surface);
                surface_id := surface_id (meta surface) |} |}.

Section Emit.
Context {rt : Runtime}.

Definition to_cubit_surface_inner (self : t) (ent_type : string) (node : Node)
  (extents : vec3) (inner_world : option vec3) (hex : bool)
  : M (string * list string) :=
  let cad_cmds := [] in
  slope <- py_sqrt (r2 self) ;;
  let cad_cmds := append cad_cmds
    ("create frustum height " ++ float_str (at0 extents) ++ " radius "
       ++ float_str (slope * at0 extents) ++ " top 0") in
  '(ids, cad_cmds) <- emit_get_last_id (Some ent_type) cad_cmds ;;
  let cad_cmds := append cad_cmds
    ("body { " ++ ids ++ " } move 0 0 -" ++ float_str (at0 extents / 2)) in
  let cad_cmds := append cad_cmds ("body { " ++ ids ++ " } copy reflect z") in
  '(ids2, cad_cmds) <- emit_get_last_id (Some ent_type) cad_cmds ;;
  let cad_cmds := append cad_cmds
    ("unite body { " ++ ids ++ " }  { " ++ ids2 ++ " }") in
  let cad_cmds := append cad_cmds
    ("rotate body { " ++ ids ++ " } about y angle 90") in
  let cad_cmds := append cad_cmds
    ("body { " ++ ids ++ " } move " ++ float_str (x0 self) ++ " "
       ++ float_str (y0 self) ++ " " ++ float_str (z0 self)) in
  if negb (side node =? "-") then
    let cad_cmds := append cad_cmds
      ("brick x " ++ float_str (at0 extents) ++ " y " ++ float_str (at1 extents)
         ++ " z " ++ float_str (at2 extents)) in
    '(wid, cad_cmds) <- emit_get_last_id (Some ent_type) cad_cmds ;;
    let cad_cmds := append cad_cmds
      ("subtract body { " ++ ids ++ " } from body { " ++ wid ++ " }") in
    let ids := wid in
    ret (ids, cad_cmds)
  else ret (ids, cad_cmds).
End Emit.
End CADXCone.

Module CADYCone.
Record t : Type := { x0 : float; y0 : float; z0 : float; r2 : float; meta : Meta }.

Definition from_openmc_surface_inner (surface : t) : t :=
  {| x0 := x0 surface; y0 := y0 surface; z0 := z0 surface; r2 := r2 surface;
     meta := {| boundary_type := boundary_type (meta surface);
                albedo := albedo (meta surface);
                name := name (meta surface);
                surface_id := surface_id (meta surface) |} |}.

Section Emit.
Context {rt : Runtime}.

Definition to_cubit_surface_inner (self : t) (ent_type : string) (node : Node)
  (extents : vec3) (inner_world : option vec3) (hex : bool)
  : M (string * list string) :=
  let cad_cmds := [] in
  slope <- py_sqrt (r2 self) ;;
  let cad_cmds := append cad_cmds
    ("create frustum height " ++ float_str (at1 extents) ++ " radius "
       ++ float_str (slope * at1 extents) ++ " top 0") in
  '(ids, cad_cmds) <- emit_get_last_id (Some ent_type) cad_cmds ;;
  let cad_cmds := append cad_cmds
    ("body { " ++ ids ++ " } move 0 0 -" ++ float_str (at1 extents / 2)) in
  let cad_cmds := append cad_cmds ("body { " ++ ids ++ " } copy reflect z") in
  '(ids2, cad_cmds) <- emit_get_last_id (Some ent_type) cad_cmds ;;
  let cad_cmds := append cad_cmds
    ("unite body { " ++ ids ++ " }  { " ++ ids2 ++ " }") in
  let cad_cmds := append cad_cmds
    ("rotate body { " ++ ids ++ " } about x angle 90") in
  let cad_cmds := append cad_cmds
    ("body { " ++ ids ++ " } move " ++ float_str (x0 self) ++ " "
       ++ float_str (y0 self) ++ " " ++ float_str (z0 self)) in
  if negb (side node =? "-") then
    let cad_cmds := append cad_cmds
      ("brick x " ++ float_str (at0 extents) ++ " y " ++ float_str (at1 extents)
         ++ " z " ++ float_str (at2 extents)) in
    '(wid, cad_cmds) <- emit_get_last_id (Some ent_type) cad_cmds ;;
    let cad_cmds := append cad_cmds
      ("subtract body { " ++ ids ++ " } from body { " ++ wid ++ " }") in
    let ids := wid in
    ret (ids, cad_cmds)
  else ret (ids, cad_cmds).
End Emit.
End CADYCone.

Module CADZCone.
Record t : Type := { x0 : float; y0 : float; z0 : float; r2 : float; meta : Meta }.

Definition from_openmc_surface_inner (surface : t) : t :=
  {| x0 := x0 surface; y0 := y0 surface; z0 := z0 surface; r2 := r2 surface;
     meta := {| boundary_type := boundary_type (meta surface);
                albedo := albedo (meta surface);
                name := name (meta surface);
                surface_id := surface_id (meta surface) |} |}.

Section Emit.
Context {rt : Runtime}.

Definition to_cubit_surface_inner (self : t) (ent_type : string) (node : Node)
  (extents : vec3) (inner_world : option vec3) (hex : bool)
  : M (string * list string) :=
  let cad_cmds := [] in
  slope <- py_sqrt (r2 self) ;;
  let cad_cmds := append cad_cmds
    ("create frustum height " ++ float_str (at2 extents) ++ " radius "
       ++ float_str (slope * at2 extents) ++ " top 0") in
  '(ids, cad_cmds) <- emit_get_last_id (Some ent_type) cad_cmds ;;
  let cad_cmds := append cad_cmds
    ("body { " ++ ids ++ " } move 0 0 -" ++ float_str (at2 extents / 2)) in
  let cad_cmds := append cad_cmds ("body { " ++ ids ++ " } copy reflect z") in
  '(ids2, cad_cmds) <- emit_get_last_id (Some ent_type) cad_cmds ;;
  let cad_cmds := append cad_cmds
    ("unite body { " ++ ids ++ " }  { " ++ ids2 ++ " }") in
  let cad_cmds := append cad_cmds
    ("body { " ++ ids ++ " } move " ++ float_str (x0 self) ++ " "
       ++ float_str (y0 self) ++ " " ++ float_str (z0 self)) in
  if negb (side node =? "-") then
    let cad_cmds := append cad_cmds
      ("brick x " ++ float_str (at0 extents) ++ " y " ++ float_str (at1 extents)
         ++ " z " ++ float_str (at2 extents)) in
    '(wid, cad_cmds) <- emit_get_last_id (Some ent_type) cad_cmds ;;
    let cad_cmds := append cad_cmds
      ("subtract body { " ++ ids ++ " } from body { " ++ wid ++ " }") in
    let ids := wid in
    ret (ids, cad_cmds)
  else ret (ids, cad_cmds).
End Emit.
End CADZCone.

(** ** Tori *)

(** The base class of the three torus variants. *)
Module CADTorus.
Record t : Type := {
  x0 : float; y0 : float; z0 : float;
  a : float; b : float; c : float; meta : Meta
}.

(** [self.b != self.c] on floats. *)
Definition check_coeffs (self : t) : M unit :=
  if negb (b self =? c self)%float
  then raise (ValueError "Only torri with constant minor radii are supported")
  else ret tt.

(** The openmc constructor stores the six coefficients as they come. *)
Definition from_openmc_surface_inner (surface : t) : t :=
  {| x0 := x0 surface; y0 := y0 surface; z0 := z0 surface;
     a := a surface; b := b surface; c := c surface;
     meta := {| boundary_type := boundary_type (meta surface);
                albedo := albedo (meta surface);
                name := name (meta surface);
                surface_id := surface_id (meta surface) |} |}.
End CADTorus.

Module CADXTorus.
Import CADTorus.
Section Emit.
Context {rt : Runtime}.

Definition to_cubit_surface_inner (self : CADTorus.t) (ent_type : string)
  (node : Node) (extents : vec3) (inner_world : option vec3) (hex : bool)
  : M (string * list string) :=
  _ <- check_coeffs self ;;
  let cad_cmds := [] in
  let cad_cmds := append cad_cmds
    ("torus major radius " ++ float_str (a self) ++ " minor radius "
       ++ float_str (b self)) in
  '(ids, cad_cmds) <- emit_get_last_id (Some ent_type) cad_cmds ;;
  let cad_cmds := append cad_cmds
    ("rotate body { " ++ ids ++ " } about y angle 90") in
  if negb (side node =? "-") then
    let cad_cmds := append cad_cmds
      ("brick x " ++ float_str (at0 extents) ++ " y " ++ float_str (at1 extents)
         ++ " z " ++ float_str (at2 extents)) in
    '(wid, cad_cmds) <- emit_get_last_id (Some ent_type) cad_cmds ;;
    let cad_cmds := append cad_cmds
      ("subtract body { " ++ ids ++ " } from body { " ++ wid ++ " }") in
    let cad_cmds :=
      move wid (PFloat (x0 self)) (PFloat (y0 self)) (PFloat (z0 self)) cad_cmds in
    let ids := wid in
    ret (ids, cad_cmds)
  else
    let cad_cmds :=
      move ids (PFloat (x0 self)) (PFloat (y0 self)) (PFloat (z0 self)) cad_cmds in
    ret (ids, cad_cmds).
End Emit.
End CADXTorus.

Module CADYTorus.
Import CADTorus.
Section Emit.
Context {rt : Runtime}.

Definition to_cubit_surface_inner (self : CADTorus.t) (ent_type : string)
  (node : Node) (extents : vec3) (inner_world : option vec3) (hex : bool)
  : M (string * list string) :=
  _ <- check_coeffs self ;;
  let cad_cmds := [] in
  let cad_cmds := append cad_cmds
    ("torus major radius " ++ float_str (a self) ++ " minor radius "
       ++ float_str (b self)) in
  '(ids, cad_cmds) <- emit_get_last_id (Some ent_type) cad_cmds ;;
  let cad_cmds := append cad_cmds
    ("rotate body { " ++ ids ++ " } about x angle 90") in
  if negb (side node =? "-") then
    let cad_cmds := append cad_cmds
      ("brick x " ++ float_str (at0 extents) ++ " y " ++ float_str (at1 extents)
         ++ " z " ++ float_str (at2 extents)) in
    '(wid, cad_cmds) <- emit_get_last_id (Some ent_type) cad_cmds ;;
    let cad_cmds := append cad_cmds
      ("subtract body { " ++ ids ++ " } from body { " ++ wid ++ " }") in
    let cad_cmds :=
      move wid (PFloat (x0 self)) (PFloat (y0 self)) (PFloat (z0 self)) cad_cmds in
    let ids := wid in
    ret (ids, cad_cmds)
  else
    let cad_cmds :=
      move ids (PFloat (x0 self)) (PFloat (y0 self)) (PFloat (z0 self)) cad_cmds in
    ret (ids, cad_cmds).
End Emit.
End CADYTorus.

Module CADZTorus.
Import CADTorus.
Section Emit.
Context {rt : Runtime}.

Definition to_cubit_surface_inner (self : CADTorus.t) (ent_type : string)
  (node : Node) (extents : vec3) (inner_world : option vec3) (hex : bool)
  : M (string * list string) :=
  _ <- check_coeffs self ;;
  let cad_cmds := [] in
  let cad_cmds := append cad_cmds
    ("torus major radius " ++ float_str (a self) ++ " minor radius "
       ++ float_str (b self)) in
  '(ids, cad_cmds) <- emit_get_last_id (Some ent_type) cad_cmds ;;
  if negb (side node =? "-") then
    let cad_cmds := append cad_cmds
      ("brick x " ++ float_str (at0 extents) ++ " y " ++ float_str (at1 extents)
         ++ " z " ++ float_str (at2 extents)) in
    '(wid, cad_cmds) <- emit_get_last_id (Some ent_type) cad_cmds ;;
    let cad_cmds := append cad_cmds
      ("subtract body { " ++ ids ++ " } from body { " ++ wid ++ " }") in
    let cad_cmds :=
      move wid (PFloat (x0 self)) (PFloat (y0 self)) (PFloat (z0 self)) cad_cmds in
    let ids := wid in
    ret (ids, cad_cmds)
  else
    let cad_cmds :=
      move ids (PFloat (x0 self)) (PFloat (y0 self)) (PFloat (z0 self)) cad_cmds in
    ret (ids, cad_cmds).
End Emit.
End CADZTorus.

(** ** The base class and its dispatch *)

(** [CADSurface] with the fifteen classes of [_CAD_SURFACES]; a method call
    on a surface runs the method of its class. *)
Module CADSurface.
Inductive t : Type :=
| Plane (s : CADPlane.t)
| XPlane (s : CADXPlane.t)
| YPlane (s : CADYPlane.t)
| ZPlane (s : CADZPlane.t)
| Cylinder (s : CADCylinder.t)
| XCylinder (s : CADXCylinder.t)
| YCylinder (s : CADYCylinder.t)
| ZCylinder (s : CADZCylinder.t)
| Sphere (s : CADSphere.t)
| XCone (s : CADXCone.t)
| YCone (s : CADYCone.t)
| ZCone (s : CADZCone.t)
| XTorus (s : CADTorus.t)
| YTorus (s : CADTorus.t)
| ZTorus (s : CADTorus.t).

Definition from_openmc_surface_inner (surface : t) : t :=
  match surface with
  | Plane s => Plane (CADPlane.from_openmc_surface_inner s)
  | XPlane s => XPlane (CADXPlane.from_openmc_surface_inner s)
  | YPlane s => YPlane (CADYPlane.from_openmc_surface_inner s)
  | ZPlane s => ZPlane (CADZPlane.from_openmc_surface_inner s)
  | Cylinder s => Cylinder (CADCylinder.from_openmc_surface_inner s)
  | XCylinder s => XCylinder (CADXCylinder.from_openmc_surface_inner s)
  | YCylinder s => YCylinder (CADYCylinder.from_openmc_surface_inner s)
  | ZCylinder s => ZCylinder (CADZCylinder.from_openmc_surface_inner s)
  | Sphere s => Sphere (CADSphere.from_openmc_surface_inner s)
  | XCone s => XCone (CADXCone.from_openmc_surface_inner s)
  | YCone s => YCone (CADYCone.from_openmc_surface_inner s)
  | ZCone s => ZCone (CADZCone.from_openmc_surface_inner s)
  | XTorus s => XTorus (CADTorus.from_openmc_surface_inner s)
  | YTorus s => YTorus (CADTorus.from_openmc_surface_inner s)
  | ZTorus s => ZTorus (CADTorus.from_openmc_surface_inner s)
  end.

(** The warnings filter around the call changes no result. *)
Definition from_openmc_surface (surface : t) : result t :=
  Return (from_openmc_surface_inner surface).

(** The attributes of a surface besides its coefficients. *)
Definition meta_of (self : t) : Meta :=
  match self with
  | Plane s => CADPlane.meta s
  | XPlane s => CADXPlane.meta s
  | YPlane s => CADYPlane.meta s
  | ZPlane s => CADZPlane.meta s
  | Cylinder s => CADCylinder.meta s
  | XCylinder s => CADXCylinder.meta s
  | YCylinder s => CADYCylinder.meta s
  | ZCylinder s => CADZCylinder.meta s
  | Sphere s => CADSphere.meta s
  | XCone s => CADXCone.meta s
  | YCone s => CADYCone.meta s
  | ZCone s => CADZCone.meta s
  | XTorus s | YTorus s | ZTorus s => CADTorus.meta s
  end.

(** [boundary_condition]: the ids are the handle text a run returned, of
    which the line keeps what follows the first two characters. *)
Definition boundary_condition (self : t) (cad_surface_ids : string) : list string :=
  if boundary_type (meta_of self) =? "transmission" then []
  else
    let cmds := [] in
    let cmds := append cmds
      ("group " ++ dquote ++ "boundary:" ++ boundary_type (meta_of self)
         ++ dquote ++ " add surface " ++ py_slice_from 2 cad_surface_ids) in
    cmds.

Section Emit.
Context {rt : Runtime}.

Definition to_cubit_surface_inner (self : t) (ent_type : string) (node : Node)
  (extents : vec3) (inner_world : option vec3) (hex : bool)
  : M (string * list string) :=
  match self with
  | Plane s => CADPlane.to_cubit_surface_inner s ent_type node extents inner_world hex
  | XPlane s => CADXPlane.to_cubit_surface_inner s ent_type node extents inner_world hex
  | YPlane s => CADYPlane.to_cubit_surface_inner s ent_type node extents inner_world hex
  | ZPlane s => CADZPlane.to_cubit_surface_inner s ent_type node extents inner_world hex
  | Cylinder s => CADCylinder.to_cubit_surface_inner s ent_type node extents inner_world hex
  | XCylinder s => CADXCylinder.to_cubit_surface_inner s ent_type node extents inner_world hex
  | YCylinder s => CADYCylinder.to_cubit_surface_inner s ent_type node extents inner_world hex
  | ZCylinder s => CADZCylinder.to_cubit_surface_inner s ent_type node extents inner_world hex
  | Sphere s => CADSphere.to_cubit_surface_inner s ent_type node extents inner_world hex
  | XCone s => CADXCone.to_cubit_surface_inner s ent_type node extents inner_world hex
  | YCone s => CADYCone.to_cubit_surface_inner s ent_type node extents inner_world hex
  | ZCone s => CADZCone.to_cubit_surface_inner s ent_type node extents inner_world hex
  | XTorus s => CADXTorus.to_cubit_surface_inner s ent_type node extents inner_world hex
  | YTorus s => CADYTorus.to_cubit_surface_inner s ent_type node extents inner_world hex
  | ZTorus s => CADZTorus.to_cubit_surface_inner s ent_type node extents inner_world hex
  end.

Definition to_cubit_surface (self : t) (ent_type : string) (node : Node)
  (extents : vec3) (inner_world : option vec3) (hex : bool)
  : M (string * list string) :=
  '(ids, cmds) <- to_cubit_surface_inner self ent_type node extents inner_world hex ;;
  ret (ids, cmds).
End Emit.
End CADSurface.

(** ** Reading a journal

    A journal line is recognised by the keyword it starts with. *)

Definition is_subtract (c : string) : bool := prefix "subtract " c.
Definition is_intersect (c : string) : bool := prefix "intersect " c.
Definition is_unite (c : string) : bool := prefix "unite " c.
Definition is_section (c : string) : bool := prefix "section " c.

Definition is_boolean (c : string) : bool :=
  is_subtract c || is_intersect c || is_unite c || is_section c.

Definition is_brick (c : string) : bool := prefix "brick " c.
Definition is_prism (c : string) : bool := prefix "create prism " c.
Definition is_cylinder (c : string) : bool := prefix "cylinder " c.
Definition is_frustum (c : string) : bool := prefix "create frustum " c.
Definition is_torus (c : string) : bool := prefix "torus " c.
Definition is_sphere (c : string) : bool := prefix "sphere " c.

Definition is_creation (c : string) : bool :=
  is_brick c || is_prism c || is_cylinder c || is_frustum c || is_torus c
  || is_sphere c.

(** [rotate body ...] and the [Rotate body ...] of the general plane. *)
Definition is_rotation (c : string) : bool :=
  prefix "rotate body " c || prefix "Rotate body " c.

(** A line that addresses one body: [body { id } move ...] or
    [body { id } copy reflect z]. *)
Definition is_body_op (c : string) : bool := prefix "body " c.

Definition is_transform (c : string) : bool := is_rotation c || is_body_op c.

Definition is_kernel (c : string) : bool :=
  is_creation c || is_boolean c || is_transform c.

(** A test [p] that only kernel lines pass. *)
Definition kernel_only (p : string -> bool) : Prop :=
  forall c, p c = true -> is_kernel c = true.

(** A test [p] that only creation and boolean lines pass. *)
Definition building_only (p : string -> bool) : Prop :=
  forall c, p c = true -> is_creation c || is_boolean c = true.

(** How many lines of a journal satisfy a test. *)
Definition count (p : string -> bool) (cmds : list string) : nat :=
  List.length (filter p cmds).

(** The lines of a run, whatever its outcome. *)
Definition journal {A} (r : result (A * list string) * nat) : list string :=
  match fst r with
  | Return (_, cmds) => cmds
  | Raise _ => []
  end.

(** What the claims ask of the helpers outside [surfaces.py]: the id capture
    adds no kernel operation of its own, [rotate] creates and combines
    nothing, and two counter values never share a handle. *)
Class RuntimeLaws (rt : Runtime) : Prop := {
  capture_bookkeeping :
    forall type id, forallb (fun c => negb (is_kernel c)) (capture type id) = true;
  rotate_transforms :
    forall id x y z,
      forallb (fun c => negb (is_creation c || is_boolean c))
              (rotate_cmds id x y z) = true;
  idname_inj : forall m n, idname m = idname n -> m = n
}.

(** ** Planes at 45 degrees

    For the normal (0, 1, 1) [CADPlane] hands [cos45] to [math.acos]: the
    binary64 quotient of 1 by the square root of 2.  For normals such as
    (0, 3, 3), (0, 7, 7) and (1, 1, sqrt 2) the quotient is the next float
    up, [cos45_next].  [acos_cos45] and [acos_cos45_next] are the binary64
    numbers nearest to their arc cosines; [math.degrees] takes the second
    to 45 and the first to the float after it. *)
Definition cos45 : float := 0x1.6a09e667f3bccp-1%float.
Definition acos_cos45 : float := 0x1.921fb54442d19p-1%float.
Definition cos45_next : float := 0x1.6a09e667f3bcdp-1%float.
Definition acos_cos45_next : float := 0x1.921fb54442d18p-1%float.



(** ** A sample runtime

    One implementation of the interface, to run the embedding on concrete
    inputs: handles [id0], [id1], ...; an APREPRO line that stores the id of
    the last entity created; floats printed as Python's [repr] prints them,
    by the shortest digits that read back as the same float; the dot product
    summed from left to right; and [math.acos] tabulated at the arguments
    the examples need, with its correctly rounded values. *)
Module Sample.

Definition decimal (n : nat) : string := NilEmpty.string_of_uint (Nat.to_uint n).

Definition quote : string := String (ascii_of_nat 34) EmptyString.

Fixpoint drop_zeros (l : list ascii) : list ascii :=
  match l with
  | "0"%char :: l' => drop_zeros l'
  | _ => l
  end.

(** [c * 10^k] against [x * 2^e], for [c] and [x] positive: the comparison of
    the two integers left when the negative powers are cleared. *)
Definition compare_scaled (c k x e : Z) : comparison :=
  (c * 10 ^ Z.max k 0 * 2 ^ Z.max (- e) 0
   ?= x * 2 ^ Z.max e 0 * 10 ^ Z.max (- k) 0)%Z.

(** The largest [c] with [c * 10^k <= x * 2^e]. *)
Definition floor_scaled (k x e : Z) : Z :=
  ((x * 2 ^ Z.max e 0 * 10 ^ Z.max (- k) 0)
   / (10 ^ Z.max k 0 * 2 ^ Z.max (- e) 0))%Z.

(** The least [k] from [k0] on with [x * 2^e < 10^k]. *)
Fixpoint decimal_point (fuel : nat) (k0 x e : Z) : Z :=
  match fuel with
  | O => k0
  | S fuel' =>
      match compare_scaled 1 k0 x e with
      | Gt => k0
      | _ => decimal_point fuel' (k0 + 1) x e
      end
  end.

(** The floats that read back as [m * 2^e] are those between the midpoints
    to its two neighbours, the midpoints included when [m] is even; in units
    of [2^(e-2)] the float is [4m] and the midpoints are [4m - 2] (or
    [4m - 1] above a power of two) and [4m + 2]. *)
Definition reads_back (m : positive) (e : Z) (c k : Z) : bool :=
  let below := if (Z.pos m =? 2 ^ 52)%Z && (-1074 <? e)%Z then 1%Z else 2%Z in
  let closed := Z.even (Z.pos m) in
  let inside (side : comparison) (o : comparison) :=
    match o with
    | Eq => closed
    | _ => match side, o with Lt, Gt | Gt, Lt => true | _, _ => false end
    end in
  inside Lt (compare_scaled c k (4 * Z.pos m - below) (e - 2))
  && inside Gt (compare_scaled c k (4 * Z.pos m + 2) (e - 2)).

(** With [n] digits: the two decimals around the float, and of those that
    read back the nearer one. *)
Definition candidate (m : positive) (e : Z) (point : Z) (n : Z) : option (Z * Z) :=
  let k := (point - n)%Z in
  let lo := floor_scaled k (Z.pos m) e in
  let hi := (lo + 1)%Z in
  match reads_back m e lo k, reads_back m e hi k with
  | true, false => Some (lo, k)
  | false, true => Some (hi, k)
  | false, false => None
  | true, true =>
      (* [v - lo] against [hi - v], that is [2 v] against [lo + hi] *)
      match compare_scaled (lo + hi) k (Z.pos m) (e + 1) with
      | Gt => Some (lo, k)
      | Lt => Some (hi, k)
      | Eq => Some (if Z.even lo then lo else hi, k)
      end
  end.

Fixpoint shortest (fuel : nat) (m : positive) (e : Z) (point : Z) (n : Z) : Z * Z :=
  match fuel with
  | O => (floor_scaled (point - n) (Z.pos m) e, (point - n)%Z)
  | S fuel' =>
      match candidate m e point n with
      | Some d => d
      | None => shortest fuel' m e point (n + 1)
      end
  end.

Definition zeros (n : Z) : list ascii := repeat "0"%char (Z.to_nat n).

Definition digits_of (c : Z) : list ascii :=
  list_ascii_of_string (NilZero.string_of_int (Z.to_int c)).

(** Python's [repr] of the positive float [m * 2^e]: the shortest digits
    that read back, in exponent form for the very small and the very
    large. *)
Definition shortest_repr (m : positive) (e : Z) : string :=
  let point := decimal_point 5 ((Z.log2 (Z.pos m) + e) * 1233 / 4096 - 1) (Z.pos m) e in
  let '(c, k) := shortest 17 m e point 1 in
  let all := digits_of c in
  let ds := List.rev (drop_zeros (List.rev all)) in
  let nd := Z.of_nat (List.length ds) in
  let dp := (k + Z.of_nat (List.length all))%Z in
  if (dp <=? -4)%Z || (16 <? dp)%Z then
    let x := (dp - 1)%Z in
    let xs := digits_of (Z.abs x) in
    string_of_list_ascii
      (List.firstn 1 ds
         ++ (match List.skipn 1 ds with [] => [] | r => "."%char :: r end)
         ++ "e"%char :: (if (x <? 0)%Z then "-"%char else "+"%char)
         :: (if (Z.abs x <? 10)%Z then "0"%char :: xs else xs))%list
  else if (dp <=? 0)%Z then
    string_of_list_ascii ("0"%char :: "."%char :: zeros (- dp) ++ ds)%list
  else if (nd <=? dp)%Z then
    string_of_list_ascii (ds ++ zeros (dp - nd) ++ ["."%char; "0"%char])%list
  else
    string_of_list_ascii
      (List.firstn (Z.to_nat dp) ds ++ "."%char :: List.skipn (Z.to_nat dp) ds)%list.

Definition float_repr (f : float) : string :=
  match Prim2SF f with
  | S754_zero s => if s then "-0.0" else "0.0"
  | S754_infinity s => if s then "-inf" else "inf"
  | S754_nan => "nan"
  | S754_finite s m e => (if s then "-" else EmptyString) ++ shortest_repr m e
  end.

(** [math.acos] raises above one and below minus one; within, the sample
    knows the arguments of the examples and has no value elsewhere. *)
Definition acos_table (x : float) : option float :=
  if (1 <? abs x)%float then None
  else if (x =? 1)%float then Some 0%float
  else if (x =? cos45)%float then Some acos_cos45
  else if (x =? cos45_next)%float then Some acos_cos45_next
  else None.

(** The dot product summed from left to right, each product and each sum
    rounded. *)
Definition dot (u v : vec3) : float :=
  (at0 u * at0 v + at1 u * at1 v + at2 u * at2 v)%float.

Definition id_capture (type : option string) (id : string) : list string :=
  let type := match type with Some s => s | None => "body" end in
  ["#{ " ++ id ++ " = Id(" ++ quote ++ type ++ quote ++ ") }"].

Definition number (x : pynum) : string :=
  match x with
  | PInt z => NilZero.string_of_int (Z.to_int z)
  | PFloat f => float_repr f
  end.

Definition axis_rotation (id : string) (x y z : pynum) : list string :=
  if py_ne0 x || py_ne0 y || py_ne0 z
  then ["rotate body { " ++ id ++ " } about 0 0 0 direction "
          ++ number x ++ " " ++ number y ++ " " ++ number z]
  else [].

Definition cubit : Runtime :=
  {| float_str := float_repr;
     acos := acos_table;
     idname := fun n => "id" ++ decimal n;
     capture := id_capture;
     rotate_cmds := axis_rotation;
     np_dot := dot |}.

(** Sample surfaces. *)
Definition meta0 : Meta :=
  {| boundary_type := "transmission"; albedo := 1; name := "sample";
     surface_id := 1 |}.

Definition extents10 : vec3 := (10, 10, 10)%float.

Definition lattice : vec3 := (4, 4, 6)%float.

Definition positive : Node := {| side := "+" |}.
Definition negative : Node := {| side := "-" |}.

Definition z_cylinder : CADZCylinder.t :=
  {| CADZCylinder.r := 2; CADZCylinder.x0 := 0; CADZCylinder.y0 := 0;
     CADZCylinder.meta := meta0 |}.

Definition x_plane : CADXPlane.t :=
  {| CADXPlane.x0 := 1; CADXPlane.meta := meta0 |}.

Definition cylinder : CADCylinder.t :=
  {| CADCylinder.r := 2; CADCylinder.x0 := 1; CADCylinder.y0 := 0;
     CADCylinder.z0 := 0; CADCylinder.dx := 0; CADCylinder.dy := 1;
     CADCylinder.dz := 1; CADCylinder.meta := meta0 |}.

Definition torus (b c : float) : CADTorus.t :=
  {| CADTorus.x0 := 1; CADTorus.y0 := 2; CADTorus.z0 := 3;
     CADTorus.a := 5; CADTorus.b := b; CADTorus.c := c;
     CADTorus.meta := meta0 |}.

Definition plane (a b c d : float) : CADPlane.t :=
  {| CADPlane.a := a; CADPlane.b := b; CADPlane.c := c; CADPlane.d := d;
     CADPlane.meta := meta0 |}.
End Sample.

(** ** The vocabulary of the statements *)

Section Vocabulary.
Context {rt : Runtime}.

Definition brick_cmd (v : vec3) : string :=
  "brick x " ++ float_str (at0 v) ++ " y " ++ float_str (at1 v)
    ++ " z " ++ float_str (at2 v).

Definition cylinder_cmd (h r : float) : string :=
  "cylinder height " ++ float_str h ++ " radius " ++ float_str r.

Definition prism_cmd (h radius : float) : string :=
  "create prism height " ++ float_str h ++ " sides 6 radius " ++ float_str radius.

Definition rotate_cmd (id axis angle : string) : string :=
  "rotate body { " ++ id ++ " } about " ++ axis ++ " angle " ++ angle.

Definition subtract_cmd (tool target : string) : string :=
  "subtract body { " ++ tool ++ " } from body { " ++ target ++ " }".


Definition move_cmd (id : string) (x y z : pynum) : string :=
  "body { " ++ id ++ " } move " ++ py_str x ++ " " ++ py_str y ++ " " ++ py_str z.

Definition torus_cmd (major minor : float) : string :=
  "torus major radius " ++ float_str major ++ " minor radius " ++ float_str minor.

End Vocabulary.

(** The families of surface classes the statements range over. *)
Definition axis_plane (s : CADSurface.t) : bool :=
  match s with
  | CADSurface.XPlane _ | CADSurface.YPlane _ | CADSurface.ZPlane _ => true
  | _ => false
  end.

Definition axis_cylinder (s : CADSurface.t) : bool :=
  match s with
  | CADSurface.XCylinder _ | CADSurface.YCylinder _ | CADSurface.ZCylinder _ => true
  | _ => false
  end.

Definition cylinder_family (s : CADSurface.t) : bool :=
  match s with
  | CADSurface.Cylinder _ => true
  | _ => axis_cylinder s
  end.

Definition axis_cone (s : CADSurface.t) : bool :=
  match s with
  | CADSurface.XCone _ | CADSurface.YCone _ | CADSurface.ZCone _ => true
  | _ => false
  end.

Definition axis_torus (s : CADSurface.t) : bool :=
  match s with
  | CADSurface.XTorus _ | CADSurface.YTorus _ | CADSurface.ZTorus _ => true
  | _ => false
  end.

(** The coefficients with which emission gets past its own checks: a torus
    passes [check_coeffs], and a cone's [r2] has a square root. *)
Definition emits (s : CADSurface.t) : bool :=
  match s with
  | CADSurface.XTorus t | CADSurface.YTorus t | CADSurface.ZTorus t =>
      (CADTorus.b t =? CADTorus.c t)%float
  | CADSurface.XCone c => negb (CADXCone.r2 c <? 0)%float
  | CADSurface.YCone c => negb (CADYCone.r2 c <? 0)%float
  | CADSurface.ZCone c => negb (CADZCone.r2 c <? 0)%float
  | _ => true
  end.



(** The centre a torus is moved to. *)
Definition torus_centre (t : CADTorus.t) : pynum * pynum * pynum :=
  (PFloat (CADTorus.x0 t), PFloat (CADTorus.y0 t), PFloat (CADTorus.z0 t)).

(** The torus a surface is, if it is one. *)
Definition as_torus (s : CADSurface.t) : option CADTorus.t :=
  match s with
  | CADSurface.XTorus t | CADSurface.YTorus t | CADSurface.ZTorus t => Some t
  | _ => None
  end.

(** The cosine [CADPlane] hands to [math.acos]. *)
Definition plane_cosine {rt : Runtime} (p : CADPlane.t) : float :=
  let n := (CADPlane.a p, CADPlane.b p, CADPlane.c p) in
  np_dot (np_div n (np_norm n)) (0, 0, 1)%float.

(** An outcome that is an exception. *)
Definition fails {A} (r : result A) : Prop := exists e, r = Raise e.

(** The reading under test for the boolean operations of a journal: one
    boolean line, a [subtract] for side [+], an [intersect] or a [section]
    for side [-]. *)
Definition one_boolean_by_side (j : list string) (node : Node) : Prop :=
  count is_boolean j = 1
  /\ (side node = "+" -> count is_subtract j = 1)
  /\ (side node = "-" -> count is_intersect j + count is_section j = 1).

(** The boolean lines emission writes, class by class:
    (subtract, intersect, unite, section). *)
Definition booleans_emitted (s : CADSurface.t) (node : Node) : nat * nat * nat * nat :=
  let cut := if side node =? "-" then 0 else 1 in
  if axis_plane s then (0, 0, 0, 1)
  else if axis_cone s then (cut, 0, 1, 0)
  else (cut, 0, 0, 0).

Definition booleans_of (j : list string) : nat * nat * nat * nat :=
  (count is_subtract j, count is_intersect j, count is_unite j, count is_section j).

(** ** More vocabulary *)

(** The same surface with other attributes. *)
Definition with_meta (m : Meta) (s : CADSurface.t) : CADSurface.t :=
  match s with
  | CADSurface.Plane p =>
      CADSurface.Plane {| CADPlane.a := CADPlane.a p; CADPlane.b := CADPlane.b p;
                          CADPlane.c := CADPlane.c p; CADPlane.d := CADPlane.d p;
                          CADPlane.meta := m |}
  | CADSurface.XPlane p =>
      CADSurface.XPlane {| CADXPlane.x0 := CADXPlane.x0 p; CADXPlane.meta := m |}
  | CADSurface.YPlane p =>
      CADSurface.YPlane {| CADYPlane.y0 := CADYPlane.y0 p; CADYPlane.meta := m |}
  | CADSurface.ZPlane p =>
      CADSurface.ZPlane {| CADZPlane.z0 := CADZPlane.z0 p; CADZPlane.meta := m |}
  | CADSurface.Cylinder c =>
      CADSurface.Cylinder
        {| CADCylinder.r := CADCylinder.r c; CADCylinder.x0 := CADCylinder.x0 c;
           CADCylinder.y0 := CADCylinder.y0 c; CADCylinder.z0 := CADCylinder.z0 c;
           CADCylinder.dx := CADCylinder.dx c; CADCylinder.dy := CADCylinder.dy c;
           CADCylinder.dz := CADCylinder.dz c; CADCylinder.meta := m |}
  | CADSurface.XCylinder c =>
      CADSurface.XCylinder
        {| CADXCylinder.r := CADXCylinder.r c; CADXCylinder.y0 := CADXCylinder.y0 c;
           CADXCylinder.z0 := CADXCylinder.z0 c; CADXCylinder.meta := m |}
  | CADSurface.YCylinder c =>
      CADSurface.YCylinder
        {| CADYCylinder.r := CADYCylinder.r c; CADYCylinder.x0 := CADYCylinder.x0 c;
           CADYCylinder.z0 := CADYCylinder.z0 c; CADYCylinder.meta := m |}
  | CADSurface.ZCylinder c =>
      CADSurface.ZCylinder
        {| CADZCylinder.r := CADZCylinder.r c; CADZCylinder.x0 := CADZCylinder.x0 c;
           CADZCylinder.y0 := CADZCylinder.y0 c; CADZCylinder.meta := m |}
  | CADSurface.Sphere c =>
      CADSurface.Sphere
        {| CADSphere.r := CADSphere.r c; CADSphere.x0 := CADSphere.x0 c;
           CADSphere.y0 := CADSphere.y0 c; CADSphere.z0 := CADSphere.z0 c;
           CADSphere.meta := m |}
  | CADSurface.XCone c =>
      CADSurface.XCone
        {| CADXCone.x0 := CADXCone.x0 c; CADXCone.y0 := CADXCone.y0 c;
           CADXCone.z0 := CADXCone.z0 c; CADXCone.r2 := CADXCone.r2 c;
           CADXCone.meta := m |}
  | CADSurface.YCone c =>
      CADSurface.YCone
        {| CADYCone.x0 := CADYCone.x0 c; CADYCone.y0 := CADYCone.y0 c;
           CADYCone.z0 := CADYCone.z0 c; CADYCone.r2 := CADYCone.r2 c;
           CADYCone.meta := m |}
  | CADSurface.ZCone c =>
      CADSurface.ZCone
        {| CADZCone.x0 := CADZCone.x0 c; CADZCone.y0 := CADZCone.y0 c;
           CADZCone.z0 := CADZCone.z0 c; CADZCone.r2 := CADZCone.r2 c;
           CADZCone.meta := m |}
  | CADSurface.XTorus t =>
      CADSurface.XTorus
        {| CADTorus.x0 := CADTorus.x0 t; CADTorus.y0 := CADTorus.y0 t;
           CADTorus.z0 := CADTorus.z0 t; CADTorus.a := CADTorus.a t;
           CADTorus.b := CADTorus.b t; CADTorus.c := CADTorus.c t;
           CADTorus.meta := m |}
  | CADSurface.YTorus t =>
      CADSurface.YTorus
        {| CADTorus.x0 := CADTorus.x0 t; CADTorus.y0 := CADTorus.y0 t;
           CADTorus.z0 := CADTorus.z0 t; CADTorus.a := CADTorus.a t;
           CADTorus.b := CADTorus.b t; CADTorus.c := CADTorus.c t;
           CADTorus.meta := m |}
  | CADSurface.ZTorus t =>
      CADSurface.ZTorus
        {| CADTorus.x0 := CADTorus.x0 t; CADTorus.y0 := CADTorus.y0 t;
           CADTorus.z0 := CADTorus.z0 t; CADTorus.a := CADTorus.a t;
           CADTorus.b := CADTorus.b t; CADTorus.c := CADTorus.c t;
           CADTorus.meta := m |}
  end.

(** The general plane among the classes. *)
Definition general_plane (s : CADSurface.t) : bool :=
  match s with
  | CADSurface.Plane _ => true
  | _ => false
  end.

(** When emission raises, with what, and how many ids it captured before:
    the general plane where [math.acos] has no value, the general cylinder
    at the unbound [w], a cone whose [r2] has no square root, a torus that
    does not pass [check_coeffs]. *)
Definition emission_error {rt : Runtime} (s : CADSurface.t) (node : Node)
  (inner_world : option vec3) : option (exn * nat) :=
  match s with
  | CADSurface.Plane p =>
      match acos (plane_cosine p) with
      | Some _ => None
      | None => Some (ValueError "math domain error", 1)
      end
  | CADSurface.Cylinder _ =>
      match inner_world with
      | Some _ => None
      | None => if side node =? "-" then None else Some (NameError "w", 1)
      end
  | CADSurface.XCone _ | CADSurface.YCone _ | CADSurface.ZCone _ =>
      if emits s then None else Some (ValueError "math domain error", 0)
  | CADSurface.XTorus _ | CADSurface.YTorus _ | CADSurface.ZTorus _ =>
      if emits s then None
      else Some (ValueError "Only torri with constant minor radii are supported", 0)
  | _ => None
  end.

Definition sphere_cmd {rt : Runtime} (r : float) : string :=
  "sphere radius " ++ float_str r.

(** The lines [move] adds. *)
Definition move_part {rt : Runtime} (id : string) (x y z : pynum) : list string :=
  if py_ne0 x || py_ne0 y || py_ne0 z then [move_cmd id x y z] else [].

(** The cone built along z, which no line rotates. *)
Definition z_cone (s : CADSurface.t) : bool :=
  match s with
  | CADSurface.ZCone _ => true
  | _ => false
  end.

(** Where a cylinder or a torus is moved to: its centre, and nothing along
    the axis of an axis-aligned cylinder, where the source writes [0]. *)
Definition placement (s : CADSurface.t) : pynum * pynum * pynum :=
  match s with
  | CADSurface.Cylinder c =>
      (PFloat (CADCylinder.x0 c), PFloat (CADCylinder.y0 c),
       PFloat (CADCylinder.z0 c))
  | CADSurface.XCylinder c =>
      (PInt 0, PFloat (CADXCylinder.y0 c), PFloat (CADXCylinder.z0 c))
  | CADSurface.YCylinder c =>
      (PFloat (CADYCylinder.x0 c), PInt 0, PFloat (CADYCylinder.z0 c))
  | CADSurface.ZCylinder c =>
      (PFloat (CADZCylinder.x0 c), PFloat (CADZCylinder.y0 c), PInt 0)
  | CADSurface.XTorus t | CADSurface.YTorus t | CADSurface.ZTorus t =>
      torus_centre t
  | _ => (PInt 0, PInt 0, PInt 0)
  end.

(** The lines [rotate] adds for the general cylinder's direction; no other
    class calls it. *)
Definition direction_part {rt : Runtime} (s : CADSurface.t) (id : string)
  : list string :=
  match s with
  | CADSurface.Cylinder c =>
      rotate_cmds id (PFloat (CADCylinder.dx c)) (PFloat (CADCylinder.dy c))
        (PFloat (CADCylinder.dz c))
  | _ => []
  end.

(** A journal line that groups surfaces. *)
Definition is_group (c : string) : bool := prefix "group " c.

(** ** The lines of the general plane *)



Section PlaneLines.
Context {rt : Runtime}.







End PlaneLines.

(** ** Ids that follow the entities *)

Section Tracking.
Context {rt : Runtime}.

(** The line that copies a body through the plane [z = 0]. *)
Definition copy_cmd (id : string) : string :=
  "body { " ++ id ++ " } copy reflect z".

(** A journal in which the ids follow the entities.  Read from counter [n]
    to counter [m], it captures the handles of [n], ..., [m - 1] in this
    order, each right after a line that creates a primitive or copies a
    body; every line that creates a primitive is followed at once by such a
    capture. *)
Inductive tracked : nat -> list string -> nat -> Prop :=
| tracked_done n : tracked n [] n
| tracked_line n c j m :
    is_creation c = false -> tracked n j m -> tracked n (c :: j) m
| tracked_entity n c type j m :
    is_creation c = true \/ (exists id, c = copy_cmd id) ->
    tracked (S n) j m ->
    tracked n (c :: capture type (idname n) ++ j)%list m.
End Tracking.

(** The rotation lines of a journal, in the order they were written. *)
Definition rotations (j : list string) : list string := filter is_rotation j.


(** * Properties *)

(** ** Counting the lines of a journal *)

Lemma count_app p (l1 l2 : list string) :
  count p (l1 ++ l2) = count p l1 + count p l2.
Proof. unfold count. rewrite filter_app, length_app. reflexivity. Qed.

Lemma count_none p (l : list string) :
  forallb (fun c => negb (p c)) l = true -> count p l = 0.
Proof.
  unfold count. induction l as [|c l IH]; simpl; intros H; [reflexivity|].
  apply andb_prop in H as [Hc Hl]. destruct (p c); [discriminate|]. auto.
Qed.

Lemma forallb_narrow (p q : string -> bool) (l : list string) :
  (forall c, q c = true -> p c = true) ->
  forallb (fun c => negb (p c)) l = true ->
  forallb (fun c => negb (q c)) l = true.
Proof.
  intros Hpq H. rewrite forallb_forall in *. intros c Hc. specialize (H c Hc).
  destruct (q c) eqn:E; [|reflexivity]. rewrite (Hpq c E) in H. discriminate.
Qed.

Ltac by_disjunct :=
  unfold kernel_only, building_only, is_kernel, is_transform, is_creation, is_boolean;
  let c := fresh "c" in
  let H := fresh "H" in
  intros c H; rewrite ?H, ?orb_true_r; reflexivity.

Lemma subtract_kernel : kernel_only is_subtract. Proof. by_disjunct. Qed.
Lemma intersect_kernel : kernel_only is_intersect. Proof. by_disjunct. Qed.
Lemma unite_kernel : kernel_only is_unite. Proof. by_disjunct. Qed.
Lemma section_kernel : kernel_only is_section. Proof. by_disjunct. Qed.
Lemma brick_kernel : kernel_only is_brick. Proof. by_disjunct. Qed.
Lemma prism_kernel : kernel_only is_prism. Proof. by_disjunct. Qed.
Lemma cylinder_kernel : kernel_only is_cylinder. Proof. by_disjunct. Qed.
Lemma rotation_kernel : kernel_only is_rotation. Proof. by_disjunct. Qed.
Lemma body_op_kernel : kernel_only is_body_op. Proof. by_disjunct. Qed.

Lemma boolean_kernel : kernel_only is_boolean.
Proof. unfold kernel_only, is_kernel. intros c ->. rewrite orb_true_r. reflexivity. Qed.

Lemma subtract_building : building_only is_subtract. Proof. by_disjunct. Qed.
Lemma intersect_building : building_only is_intersect. Proof. by_disjunct. Qed.
Lemma unite_building : building_only is_unite. Proof. by_disjunct. Qed.
Lemma section_building : building_only is_section. Proof. by_disjunct. Qed.
Lemma brick_building : building_only is_brick. Proof. by_disjunct. Qed.
Lemma prism_building : building_only is_prism. Proof. by_disjunct. Qed.

Lemma boolean_building : building_only is_boolean.
Proof. unfold building_only. intros c ->. apply orb_true_r. Qed.

Create HintDb journal.
#[export] Hint Resolve subtract_kernel intersect_kernel unite_kernel section_kernel
  brick_kernel prism_kernel cylinder_kernel rotation_kernel body_op_kernel
  boolean_kernel subtract_building intersect_building unite_building
  section_building brick_building prism_building boolean_building : journal.

Section Lawful.
Context {rt : Runtime} {laws : RuntimeLaws rt}.

Lemma capture_count p type id : kernel_only p -> count p (capture type id) = 0.
Proof.
  intros H. apply count_none, (forallb_narrow is_kernel); [exact H|].
  apply capture_bookkeeping.
Qed.

Lemma rotate_count p id x y z : building_only p -> count p (rotate_cmds id x y z) = 0.
Proof.
  intros H. apply count_none.
  apply (forallb_narrow (fun c => is_creation c || is_boolean c)); [exact H|].
  apply rotate_transforms.
Qed.
End Lawful.

(** Splits a count over the pieces of a journal, drops the lines of the
    helpers, and evaluates the tests on what the source wrote. *)
Ltac tally :=
  rewrite ?count_app;
  rewrite ?capture_count by auto with journal;
  rewrite ?rotate_count by auto with journal;
  reflexivity.

(** ** The sample runtime is lawful *)

Lemma decimal_inj m n : Sample.decimal m = Sample.decimal n -> m = n.
Proof.
  unfold Sample.decimal. intros H.
  apply Unsigned.to_uint_inj.
  assert (E : Some (Nat.to_uint m) = Some (Nat.to_uint n))
    by (rewrite <- !NilEmpty.usu, H; reflexivity).
  congruence.
Qed.

Lemma sample_laws : RuntimeLaws Sample.cubit.
Proof.
  constructor.
  - intros [ty|] id; reflexivity.
  - intros id x y z. simpl. unfold Sample.axis_rotation.
    destruct (_ || _); reflexivity.
  - simpl. intros m n H. apply decimal_inj. congruence.
Qed.

(** ** Unfolding a run *)

(** [move] adds at most its one line, after what is there. *)
Lemma move_lines (rt : Runtime) id x y z cmds :
  move id x y z cmds = (cmds ++ if py_ne0 x || py_ne0 y || py_ne0 z
                                then [move_cmd id x y z] else [])%list.
Proof.
  unfold move, append. destruct (_ || _); [reflexivity|].
  rewrite app_nil_r. reflexivity.
Qed.

Ltac unfold_run :=
  cbv [CADSurface.to_cubit_surface CADSurface.to_cubit_surface_inner
       CADPlane.to_cubit_surface_inner
       CADXPlane.to_cubit_surface_inner CADYPlane.to_cubit_surface_inner
       CADZPlane.to_cubit_surface_inner
       CADCylinder.to_cubit_surface_inner CADXCylinder.to_cubit_surface_inner
       CADYCylinder.to_cubit_surface_inner CADZCylinder.to_cubit_surface_inner
       CADSphere.to_cubit_surface_inner
       CADXCone.to_cubit_surface_inner CADYCone.to_cubit_surface_inner
       CADZCone.to_cubit_surface_inner
       CADXTorus.to_cubit_surface_inner CADYTorus.to_cubit_surface_inner
       CADZTorus.to_cubit_surface_inner CADTorus.check_coeffs
       py_sqrt py_acos bind ret raise emit_get_last_id append rotate
       journal fst snd negb].


Lemma side_is_not (node : Node) : side node <> "-" -> (side node =? "-") = false.
Proof. apply String.eqb_neq. Qed.

(** ** The general cylinder without an inner world *)

(** C3: for the general cylinder, a side other than [-] and no inner world,
    emission stops at the unbound name [w]: it raises [NameError] after the
    cylinder's id was captured, whatever the world extents are, and returns
    no command sequence. *)
Theorem general_cylinder_unbound_w (rt : Runtime) (self : CADCylinder.t)
  (ent_type : string) (node : Node) (extents : vec3) (hex : bool) (n : nat) :
  side node <> "-" ->
  CADCylinder.to_cubit_surface_inner self ent_type node extents None hex n
    = (Raise (NameError "w"), S n)
  /\ CADSurface.to_cubit_surface (CADSurface.Cylinder self) ent_type node
       extents None hex n
     = (Raise (NameError "w"), S n).
Proof.
  intros H. apply side_is_not in H.
  split; unfold_run; rewrite H; reflexivity.
Qed.

Lemma general_cylinder_unbound_w_witness :
  CADCylinder.to_cubit_surface_inner (rt := Sample.cubit) Sample.cylinder
    "body" Sample.positive Sample.extents10 None false 1
    = (Raise (NameError "w"), 2)
  /\ CADSurface.to_cubit_surface (rt := Sample.cubit)
       (CADSurface.Cylinder Sample.cylinder) "body" Sample.positive
       Sample.extents10 None false 1
     = (Raise (NameError "w"), 2).
Proof.
  apply (general_cylinder_unbound_w Sample.cubit). simpl. discriminate.
Defined.

(** ** The Z cylinder of radius 2 *)

(** C7: a Z cylinder of radius 2 centred at the origin, extents (10, 10, 10),
    no inner world, side [+]: the journal is the cylinder of height 10 and
    radius 2, the capture of its id, the brick 10 by 10 by 10, the capture of
    the brick's id, and one subtract line naming both ids; the id returned
    is the brick's, which is not the cylinder's. *)
Theorem z_cylinder_positive_journal (rt : Runtime) (laws : RuntimeLaws rt)
  (meta : Meta) (ent_type : string) (hex : bool) (n : nat) :
  let self := {| CADZCylinder.r := 2; CADZCylinder.x0 := 0;
                 CADZCylinder.y0 := 0; CADZCylinder.meta := meta |} in
  let extents := (10, 10, 10)%float in
  let cyl := idname n in
  let brick := idname (S n) in
  let j := ([cylinder_cmd 10 2] ++ capture (Some ent_type) cyl
              ++ [brick_cmd extents] ++ capture (Some ent_type) brick
              ++ [subtract_cmd cyl brick])%list in
  CADZCylinder.to_cubit_surface_inner self ent_type {| side := "+" |}
      extents None hex n
    = (Return (brick, j), S (S n))
  /\ count is_cylinder j = 1 /\ count is_brick j = 1
  /\ count is_subtract j = 1 /\ count is_boolean j = 1
  /\ count is_transform j = 0
  /\ brick <> cyl.
Proof.
  intros self extents cyl brick j. subst j cyl brick.
  split; [|repeat split].
  - unfold_run. cbn [side String.eqb Ascii.eqb Bool.eqb].
    rewrite move_lines, <- !app_assoc. reflexivity.
  - tally.
  - tally.
  - tally.
  - tally.
  - rewrite ?count_app.
    rewrite ?capture_count
      by (intros c Hc; unfold is_kernel; rewrite Hc, orb_true_r; reflexivity).
    reflexivity.
  - intros E. apply idname_inj in E. lia.
Qed.

Lemma z_cylinder_positive_journal_witness :
  let j := ["cylinder height 10.0 radius 2.0";
            "#{ id1 = Id(" ++ Sample.quote ++ "body" ++ Sample.quote ++ ") }";
            "brick x 10.0 y 10.0 z 10.0";
            "#{ id2 = Id(" ++ Sample.quote ++ "body" ++ Sample.quote ++ ") }";
            "subtract body { id1 } from body { id2 }"] in
  CADZCylinder.to_cubit_surface_inner (rt := Sample.cubit) Sample.z_cylinder
      "body" Sample.positive Sample.extents10 None false 1
    = (Return ("id2", j), 3)
  /\ count is_cylinder j = 1 /\ count is_brick j = 1
  /\ count is_subtract j = 1 /\ count is_boolean j = 1
  /\ count is_transform j = 0
  /\ "id2" <> "id1".
Proof.
  exact (z_cylinder_positive_journal Sample.cubit sample_laws Sample.meta0
           "body" false 1).
Defined.

(** ** The cylinder family *)



(** C4: for every cylinder class, an inner world, the hex flag and a side
    other than [-], the journal holds the prism line with [sides 6] and
    radius half the first inner-world dimension, then the capture of the
    prism's id, then its rotation by 30 degrees about z, and only later the
    subtraction of the cylinder from the prism; the prism is the only prism
    and no line creates a brick. *)
Theorem hex_cutout_prism (rt : Runtime) (laws : RuntimeLaws rt)
  (s : CADSurface.t) (ent_type : string) (node : Node) (extents : vec3)
  (inner_world : vec3) (n : nat) :
  cylinder_family s = true ->
  side node <> "-" ->
  let r := CADSurface.to_cubit_surface_inner s ent_type node extents
             (Some inner_world) true n in
  let ids := idname n in
  let wid := idname (S n) in
  exists pre mid post,
    r = (Return (wid,
                 (pre ++ [prism_cmd (at2 inner_world) (at0 inner_world / 2)]
                    ++ capture (Some ent_type) wid
                    ++ [rotate_cmd wid "z" "30"]
                    ++ mid ++ [subtract_cmd ids wid] ++ post)%list),
         S (S n))
    /\ count is_subtract pre = 0
    /\ count is_prism (journal r) = 1
    /\ count is_brick (journal r) = 0.
Proof.
  intros Hs Hside r ids wid. apply side_is_not in Hside. subst r ids wid.
  destruct s; try discriminate Hs; unfold_run; rewrite Hside;
    cbv beta iota zeta; rewrite !move_lines.
  - exists ([cylinder_cmd (at2 inner_world) (CADCylinder.r s)]
              ++ capture None (idname n))%list, [].
    eexists. split; [rewrite <- !app_assoc; reflexivity|].
    destruct (_ || _); repeat split; tally.
  - exists ([cylinder_cmd (at0 inner_world) (CADXCylinder.r s)]
              ++ capture (Some ent_type) (idname n)
              ++ [rotate_cmd (idname n) "y" "90"])%list,
           [rotate_cmd (idname (S n)) "y" "90"].
    eexists. split; [rewrite <- !app_assoc; reflexivity|].
    destruct (_ || _); repeat split; tally.
  - exists ([cylinder_cmd (at1 inner_world) (CADYCylinder.r s)]
              ++ capture (Some ent_type) (idname n)
              ++ [rotate_cmd (idname n) "x" "90"])%list,
           [rotate_cmd (idname (S n)) "x" "90"].
    eexists. split; [rewrite <- !app_assoc; reflexivity|].
    destruct (_ || _); repeat split; tally.
  - exists ([cylinder_cmd (at2 inner_world) (CADZCylinder.r s)]
              ++ capture (Some ent_type) (idname n))%list, [].
    eexists. split; [rewrite <- !app_assoc; reflexivity|].
    destruct (_ || _); repeat split; tally.
Qed.

Lemma hex_cutout_prism_witness :
  let r := CADSurface.to_cubit_surface_inner (rt := Sample.cubit)
             (CADSurface.ZCylinder Sample.z_cylinder) "body" Sample.positive
             Sample.extents10 (Some Sample.lattice) true 1 in
  exists pre mid post,
    r = (Return ("id2",
                 (pre ++ ["create prism height 6.0 sides 6 radius 2.0"]
                    ++ Sample.id_capture (Some "body") "id2"
                    ++ ["rotate body { id2 } about z angle 30"]
                    ++ mid ++ ["subtract body { id1 } from body { id2 }"]
                    ++ post)%list),
         3)
    /\ count is_subtract pre = 0
    /\ count is_prism (journal r) = 1
    /\ count is_brick (journal r) = 0.
Proof.
  refine (hex_cutout_prism Sample.cubit sample_laws
            (CADSurface.ZCylinder Sample.z_cylinder) "body" Sample.positive
            Sample.extents10 Sample.lattice 1 eq_refl _).
  simpl. discriminate.
Defined.

(** ** Tori *)

(** C8: for every torus class whose coefficients pass the check and a side
    other than [-], the journal is a prefix that holds the world brick and
    neither a boolean line nor a line addressed to a body, then the
    subtraction of the torus from the brick, then the move of the brick to
    the torus centre (no line when the centre is the origin). *)
Theorem torus_subtract_before_move (rt : Runtime) (laws : RuntimeLaws rt)
  (s : CADSurface.t) (t : CADTorus.t) (ent_type : string) (node : Node)
  (extents : vec3) (inner_world : option vec3) (hex : bool) (n : nat) :
  as_torus s = Some t ->
  (CADTorus.b t =? CADTorus.c t)%float = true ->
  side node <> "-" ->
  let r := CADSurface.to_cubit_surface_inner s ent_type node extents
             inner_world hex n in
  let ids := idname n in
  let wid := idname (S n) in
  let x := PFloat (CADTorus.x0 t) in
  let y := PFloat (CADTorus.y0 t) in
  let z := PFloat (CADTorus.z0 t) in
  exists pre,
    r = (Return (wid,
                 (pre ++ [subtract_cmd ids wid]
                    ++ (if py_ne0 x || py_ne0 y || py_ne0 z
                        then [move_cmd wid x y z] else []))%list),
         S (S n))
    /\ In (brick_cmd extents) pre
    /\ count is_body_op pre = 0
    /\ count is_boolean pre = 0.
Proof.
  intros Hs Hb Hside r ids wid x y z. apply side_is_not in Hside.
  subst r ids wid x y z.
  destruct s; try discriminate Hs; injection Hs as ->; unfold_run;
    rewrite Hb, Hside; cbv beta iota zeta; rewrite !move_lines.
  - exists ([torus_cmd (CADTorus.a t) (CADTorus.b t)]
              ++ capture (Some ent_type) (idname n)
              ++ [rotate_cmd (idname n) "y" "90"]
              ++ [brick_cmd extents]
              ++ capture (Some ent_type) (idname (S n)))%list.
    split; [rewrite <- !app_assoc; reflexivity|].
    split; [rewrite !in_app_iff; simpl; tauto|]. split; tally.
  - exists ([torus_cmd (CADTorus.a t) (CADTorus.b t)]
              ++ capture (Some ent_type) (idname n)
              ++ [rotate_cmd (idname n) "x" "90"]
              ++ [brick_cmd extents]
              ++ capture (Some ent_type) (idname (S n)))%list.
    split; [rewrite <- !app_assoc; reflexivity|].
    split; [rewrite !in_app_iff; simpl; tauto|]. split; tally.
  - exists ([torus_cmd (CADTorus.a t) (CADTorus.b t)]
              ++ capture (Some ent_type) (idname n)
              ++ [brick_cmd extents]
              ++ capture (Some ent_type) (idname (S n)))%list.
    split; [rewrite <- !app_assoc; reflexivity|].
    split; [rewrite !in_app_iff; simpl; tauto|]. split; tally.
Qed.

Lemma torus_subtract_before_move_witness :
  let r := CADSurface.to_cubit_surface_inner (rt := Sample.cubit)
             (CADSurface.ZTorus (Sample.torus 1 1)) "body" Sample.positive
             Sample.extents10 None false 1 in
  exists pre,
    r = (Return ("id2",
                 (pre ++ ["subtract body { id1 } from body { id2 }"]
                    ++ ["body { id2 } move 1.0 2.0 3.0"])%list),
         3)
    /\ In "brick x 10.0 y 10.0 z 10.0" pre
    /\ count is_body_op pre = 0
    /\ count is_boolean pre = 0.
Proof.
  refine (torus_subtract_before_move Sample.cubit sample_laws
            (CADSurface.ZTorus (Sample.torus 1 1)) (Sample.torus 1 1) "body"
            Sample.positive Sample.extents10 None false 1 eq_refl eq_refl _).
  simpl. discriminate.
Defined.

(** ** Binary64 arithmetic: the size of a rounded product *)

Section Binary64.
Local Open Scope Z_scope.














End Binary64.

(** ** The general plane *)

(** Finds a line the source wrote among the pieces of a journal. *)
Ltac pick_line :=
  match goal with
  | |- _ \/ _ => (left; pick_line) || (right; pick_line)
  | |- _ = _ => reflexivity
  end.













(** The rotation lines the sample runtime writes for four normals at 45
    degrees to z, and for two along z. *)
Lemma sample_plane_rotations :
  map (fun p => rotations (journal
                  (CADPlane.to_cubit_surface_inner (rt := Sample.cubit) p
                     "body" Sample.positive Sample.extents10 None false 1)))
      [Sample.plane 0 1 1 3; Sample.plane 0 3 3 6; Sample.plane 0 7 7 0;
       Sample.plane 1 1 0x1.6a09e667f3bcdp+0 2;
       Sample.plane 0 0 1 3; Sample.plane 0 0 5 3]
  = [["Rotate body { id1 } about 0 0 0 direction -1.0 0.0 0.0 Angle 45.00000000000001"];
     ["Rotate body { id1 } about 0 0 0 direction -1.0 0.0 0.0 Angle 45.0"];
     ["Rotate body { id1 } about 0 0 0 direction -1.0 0.0 0.0 Angle 45.0"];
     ["Rotate body { id1 } about 0 0 0 direction -0.7071067811865475 0.7071067811865475 0.0 Angle 45.0"];
     []; []].
Proof. vm_compute. reflexivity. Qed.

(** ** Where the torus check runs *)

Lemma meta_copy (m : Meta) :
  {| boundary_type := boundary_type m; albedo := albedo m; name := name m;
     surface_id := surface_id m |} = m.
Proof. destruct m; reflexivity. Qed.

(** Construction copies what it is given. *)
Lemma from_openmc_surface_inner_copy (s : CADSurface.t) :
  CADSurface.from_openmc_surface_inner s = s.
Proof.
  destruct s as [s|s|s|s|s|s|s|s|s|s|s|s|s|s|s]; destruct s; simpl;
    unfold CADPlane.from_openmc_surface_inner,
      CADXPlane.from_openmc_surface_inner, CADYPlane.from_openmc_surface_inner,
      CADZPlane.from_openmc_surface_inner, CADCylinder.from_openmc_surface_inner,
      CADXCylinder.from_openmc_surface_inner,
      CADYCylinder.from_openmc_surface_inner,
      CADZCylinder.from_openmc_surface_inner, CADSphere.from_openmc_surface_inner,
      CADXCone.from_openmc_surface_inner, CADYCone.from_openmc_surface_inner,
      CADZCone.from_openmc_surface_inner, CADTorus.from_openmc_surface_inner;
    simpl; rewrite meta_copy; reflexivity.
Qed.

(** C2, as stated, fails: the X torus with minor radii 1 and 2 is
    constructed. *)
Lemma asymmetric_torus_is_constructed :
  ~ fails (CADSurface.from_openmc_surface
             (CADSurface.XTorus (Sample.torus 1 2))).
Proof. intros [e H]. discriminate H. Qed.

(** C2, amended: construction never fails for a class of [_CAD_SURFACES],
    it copies the coefficients, so an axis cone (which has the single
    coefficient [r2]) and a torus with [b != c] are constructed; for such a
    torus it is emission that fails, at its first step: [ValueError], no
    line written, the id counter untouched. *)
Theorem torus_check_at_emission (rt : Runtime) (s : CADSurface.t)
  (t : CADTorus.t) (ent_type : string) (node : Node) (extents : vec3)
  (inner_world : option vec3) (hex : bool) (n : nat) :
  as_torus s = Some t ->
  (CADTorus.b t =? CADTorus.c t)%float = false ->
  CADSurface.from_openmc_surface s = Return s
  /\ (forall s' : CADSurface.t, CADSurface.from_openmc_surface s' = Return s')
  /\ CADSurface.to_cubit_surface s ent_type node extents inner_world hex n
     = (Raise (ValueError "Only torri with constant minor radii are supported"),
        n).
Proof.
  intros Hs Hb.
  assert (C : forall s', CADSurface.from_openmc_surface s' = Return s')
    by (intros s'; unfold CADSurface.from_openmc_surface;
        rewrite from_openmc_surface_inner_copy; reflexivity).
  split; [apply C|]. split; [exact C|].
  destruct s; try discriminate Hs; injection Hs as ->; unfold_run;
    rewrite Hb; reflexivity.
Qed.

Lemma torus_check_at_emission_witness :
  let s := CADSurface.XTorus (Sample.torus 1 2) in
  CADSurface.from_openmc_surface s = Return s
  /\ (forall s' : CADSurface.t, CADSurface.from_openmc_surface s' = Return s')
  /\ CADSurface.to_cubit_surface (rt := Sample.cubit) s "body"
       Sample.positive Sample.extents10 None false 1
     = (Raise (ValueError "Only torri with constant minor radii are supported"),
        1).
Proof.
  exact (torus_check_at_emission Sample.cubit
           (CADSurface.XTorus (Sample.torus 1 2)) (Sample.torus 1 2) "body"
           Sample.positive Sample.extents10 None false 1 eq_refl eq_refl).
Defined.

(** ** The boolean lines of the axis-aligned classes *)

(** C1, as stated, fails: the journal of a Z cylinder for side [-] has no
    boolean line at all, and the journal of an X plane for side [+] has a
    [section] line and no [subtract]. *)
Lemma booleans_not_by_side :
  ~ one_boolean_by_side
      (journal (CADSurface.to_cubit_surface_inner (rt := Sample.cubit)
                  (CADSurface.ZCylinder Sample.z_cylinder) "body"
                  Sample.negative Sample.extents10 None false 1))
      Sample.negative
  /\ ~ one_boolean_by_side
         (journal (CADSurface.to_cubit_surface_inner (rt := Sample.cubit)
                     (CADSurface.XPlane Sample.x_plane) "body"
                     Sample.positive Sample.extents10 None false 1))
         Sample.positive.
Proof.
  split.
  - intros [H _]. vm_compute in H. discriminate H.
  - intros [_ [H _]]. specialize (H eq_refl). vm_compute in H. discriminate H.
Qed.

(** C1, amended: for every axis-aligned plane, cylinder, cone and torus
    class whose coefficients emission accepts, emission returns a journal
    whose boolean lines are these.  A plane: one [section], for either
    side.  A cylinder or a torus: one [subtract] when the side is not [-],
    and no boolean line when it is.  A cone: the [unite] of its two nappes
    for either side, and one [subtract] besides when the side is not [-].
    No class writes an [intersect]. *)
Theorem axis_aligned_booleans (rt : Runtime) (laws : RuntimeLaws rt)
  (s : CADSurface.t) (ent_type : string) (node : Node) (extents : vec3)
  (inner_world : option vec3) (hex : bool) (n : nat) :
  axis_plane s || axis_cylinder s || axis_cone s || axis_torus s = true ->
  emits s = true ->
  let r := CADSurface.to_cubit_surface_inner s ent_type node extents
             inner_world hex n in
  (exists ids j, fst r = Return (ids, j))
  /\ booleans_of (journal r) = booleans_emitted s node.
Proof.
  intros Hs He r. subst r. unfold booleans_of, booleans_emitted.
  destruct s; try discriminate Hs; cbn [axis_plane axis_cone];
    cbn [emits] in He; try apply negb_true_iff in He;
    unfold_run; rewrite ?He; cbv beta iota zeta;
    destruct (side node =? "-"); try destruct inner_world as [iw|];
    try destruct hex; cbv beta iota zeta; rewrite ?move_lines;
    (split; [do 2 eexists; reflexivity|]);
    try match goal with
        | |- context [if ?b then [_] else []] => destruct b
        end;
    repeat apply f_equal2; tally.
Qed.

Lemma axis_aligned_booleans_witness :
  let r := CADSurface.to_cubit_surface_inner (rt := Sample.cubit)
             (CADSurface.XPlane Sample.x_plane) "body" Sample.positive
             Sample.extents10 None false 1 in
  (exists ids j, fst r = Return (ids, j))
  /\ booleans_of (journal r) = (0, 0, 0, 1).
Proof.
  exact (axis_aligned_booleans Sample.cubit sample_laws
           (CADSurface.XPlane Sample.x_plane) "body" Sample.positive
           Sample.extents10 None false 1 eq_refl eq_refl).
Defined.

(** * Further properties of the module *)

(** ** What a run does not read *)

(** X1: a run reads the side marker only to compare it with [-]: two nodes
    that agree on that comparison give the same outcome, for every class. *)
Theorem side_read_as_negative_or_not (rt : Runtime) (s : CADSurface.t)
  (ent_type : string) (node node' : Node) (extents : vec3)
  (inner_world : option vec3) (hex : bool) (n : nat) :
  (side node =? "-") = (side node' =? "-") ->
  CADSurface.to_cubit_surface s ent_type node extents inner_world hex n
  = CADSurface.to_cubit_surface s ent_type node' extents inner_world hex n.
Proof.
  intros H.
  destruct s; unfold_run;
    unfold CADXPlane.reverse, CADYPlane.reverse, CADZPlane.reverse;
    rewrite H; reflexivity.
Qed.

Lemma side_read_as_negative_or_not_witness :
  CADSurface.to_cubit_surface (rt := Sample.cubit)
    (CADSurface.XPlane Sample.x_plane) "body" Sample.positive
    Sample.extents10 None false 1
  = CADSurface.to_cubit_surface (rt := Sample.cubit)
      (CADSurface.XPlane Sample.x_plane) "body" {| side := "outside" |}
      Sample.extents10 None false 1.
Proof.
  exact (side_read_as_negative_or_not Sample.cubit
           (CADSurface.XPlane Sample.x_plane) "body" Sample.positive
           {| side := "outside" |} Sample.extents10 None false 1 eq_refl).
Defined.

(** X2: a run reads no attribute of the surface besides its coefficients:
    the boundary type, the albedo, the name and the surface id leave the
    outcome as it is, so no boundary condition reaches the journal. *)
Theorem attributes_not_read (rt : Runtime) (m : Meta) (s : CADSurface.t)
  (ent_type : string) (node : Node) (extents : vec3)
  (inner_world : option vec3) (hex : bool) (n : nat) :
  CADSurface.to_cubit_surface (with_meta m s) ent_type node extents
    inner_world hex n
  = CADSurface.to_cubit_surface s ent_type node extents inner_world hex n.
Proof. destruct s; reflexivity. Qed.

(** X3: only the cylinder classes read the inner world and the hex flag:
    for every other class the outcome is the one without an inner world. *)
Theorem inner_world_read_by_cylinders_only (rt : Runtime) (s : CADSurface.t)
  (ent_type : string) (node : Node) (extents : vec3)
  (inner_world : option vec3) (hex : bool) (n : nat) :
  cylinder_family s = false ->
  CADSurface.to_cubit_surface s ent_type node extents inner_world hex n
  = CADSurface.to_cubit_surface s ent_type node extents None false n.
Proof. intros H. destruct s; try discriminate H; reflexivity. Qed.

Lemma inner_world_read_by_cylinders_only_witness :
  CADSurface.to_cubit_surface (rt := Sample.cubit)
    (CADSurface.ZTorus (Sample.torus 1 1)) "body" Sample.positive
    Sample.extents10 (Some Sample.lattice) true 1
  = CADSurface.to_cubit_surface (rt := Sample.cubit)
      (CADSurface.ZTorus (Sample.torus 1 1)) "body" Sample.positive
      Sample.extents10 None false 1.
Proof.
  exact (inner_world_read_by_cylinders_only Sample.cubit
           (CADSurface.ZTorus (Sample.torus 1 1)) "body" Sample.positive
           Sample.extents10 (Some Sample.lattice) true 1 eq_refl).
Defined.

(** X4: without an inner world the hex flag is read by no class: a hex
    cutout asked for without inner-world dimensions is clipped like any
    other request, and raises nothing of its own. *)
Theorem hex_needs_inner_world (rt : Runtime) (s : CADSurface.t)
  (ent_type : string) (node : Node) (extents : vec3) (hex : bool) (n : nat) :
  CADSurface.to_cubit_surface s ent_type node extents None hex n
  = CADSurface.to_cubit_surface s ent_type node extents None false n.
Proof. destruct s; reflexivity. Qed.

(** X5: a cylinder class that is given an inner world does not read the
    world extents. *)
Theorem inner_world_replaces_extents (rt : Runtime) (s : CADSurface.t)
  (ent_type : string) (node : Node) (extents extents' inner_world : vec3)
  (hex : bool) (n : nat) :
  cylinder_family s = true ->
  CADSurface.to_cubit_surface s ent_type node extents (Some inner_world) hex n
  = CADSurface.to_cubit_surface s ent_type node extents' (Some inner_world) hex n.
Proof. intros H. destruct s; try discriminate H; reflexivity. Qed.

Lemma inner_world_replaces_extents_witness :
  CADSurface.to_cubit_surface (rt := Sample.cubit)
    (CADSurface.ZCylinder Sample.z_cylinder) "body" Sample.positive
    Sample.extents10 (Some Sample.lattice) true 1
  = CADSurface.to_cubit_surface (rt := Sample.cubit)
      (CADSurface.ZCylinder Sample.z_cylinder) "body" Sample.positive
      Sample.lattice (Some Sample.lattice) true 1.
Proof.
  exact (inner_world_replaces_extents Sample.cubit
           (CADSurface.ZCylinder Sample.z_cylinder) "body" Sample.positive
           Sample.extents10 Sample.lattice Sample.lattice true 1 eq_refl).
Defined.

(** ** When emission raises *)

(** X6: emission raises in four situations and in no other: the general
    plane where [math.acos] has no value and the general cylinder at the
    unbound [w], each after one id was captured; a cone whose [r2] is
    negative and a torus with [b != c], each before any id was captured.
    Everywhere else it returns an id and a journal. *)
Theorem emission_raises_exactly (rt : Runtime) (s : CADSurface.t)
  (ent_type : string) (node : Node) (extents : vec3)
  (inner_world : option vec3) (hex : bool) (n : nat) :
  let r := CADSurface.to_cubit_surface s ent_type node extents inner_world
             hex n in
  match emission_error s node inner_world with
  | Some (e, k) => r = (Raise e, n + k)
  | None => exists ids j m, r = (Return (ids, j), m) /\ n < m
  end.
Proof.
  intros r. subst r.
  destruct s; unfold emission_error, emits, plane_cosine; unfold_run;
    cbv beta iota zeta;
    repeat match goal with
           | |- context [acos ?x] => destruct (acos x)
           | |- context [(?x <? ?y)%float] => destruct (x <? y)%float
           | |- context [(?x =? ?y)%float] => destruct (x =? y)%float
           | |- context [side node =? "-"] => destruct (side node =? "-")
           | |- context [match inner_world with _ => _ end] => destruct inner_world
           | |- context [if hex then _ else _] => destruct hex
           end;
    cbv beta iota zeta;
    first [ rewrite ?Nat.add_0_r, ?Nat.add_1_r; reflexivity
          | do 3 eexists; split; [reflexivity|lia] ].
Qed.

(** ** Ids and the lines that create entities *)

(** Brings a run to the cases of its tests, with the moves as lists. *)
Ltac run_cases node inner_world hex :=
  unfold_run; cbv beta iota zeta;
  repeat match goal with
         | |- context [acos ?x] => destruct (acos x)
         | |- context [(?x <? ?y)%float] => destruct (x <? y)%float
         | |- context [(?x =? ?y)%float] => destruct (x =? y)%float
         | |- context [side node =? "-"] => destruct (side node =? "-")
         | |- context [match inner_world with _ => _ end] => destruct inner_world
         | |- context [if hex then _ else _] => destruct hex
         | |- context [isclose ?a ?b ?c] => destruct (isclose a b c)
         end;
  cbv beta iota zeta; rewrite ?move_lines;
  try match goal with
      | |- context [if ?b then [_] else []] => destruct b
      end.

(** Evaluates the tests on the lines the source wrote. *)
Ltac eval_counts :=
  rewrite ?count_app;
  rewrite ?capture_count
    by first [ solve [auto with journal] | by_disjunct
             | intros c Hc; unfold is_kernel; rewrite Hc; reflexivity ];
  rewrite ?rotate_count
    by first [ solve [auto with journal] | by_disjunct
             | intros c Hc; rewrite Hc; reflexivity ];
  repeat match goal with
         | |- context [count ?p (@nil string)] =>
             change (count p (@nil string)) with 0
         | |- context [count ?p (?c :: nil)] =>
             let v := eval vm_compute in (count p (c :: nil)) in
             change (count p (c :: nil)) with v
         end.

Lemma creations_of_a_run (rt : Runtime) (laws : RuntimeLaws rt)
  (s : CADSurface.t) (ent_type : string) (node : Node) (extents : vec3)
  (inner_world : option vec3) (hex : bool) (n : nat) :
  let r := CADSurface.to_cubit_surface s ent_type node extents inner_world
             hex n in
  match fst r with
  | Return _ =>
      snd r = n + count is_creation (journal r)
              + (if axis_cone s then 1 else 0)
  | Raise _ => True
  end.
Proof.
  intros r. subst r.
  destruct s; cbn [axis_cone]; run_cases node inner_world hex;
    try exact I; eval_counts; lia.
Qed.

Lemma tracked_quiet (rt : Runtime) (n m : nat) (l j : list string) :
  forallb (fun c => negb (is_creation c)) l = true ->
  tracked n j m -> tracked n (l ++ j) m.
Proof.
  intros Q T. induction l as [|c l IH]; [exact T|].
  cbn [forallb] in Q. apply andb_prop in Q as [Qc Ql].
  cbn [List.app]. apply tracked_line; [|exact (IH Ql)].
  destruct (is_creation c); [discriminate Qc|reflexivity].
Qed.

Lemma rotate_quiet (rt : Runtime) (laws : RuntimeLaws rt) id x y z :
  forallb (fun c => negb (is_creation c)) (rotate_cmds id x y z) = true.
Proof.
  apply (forallb_narrow (fun c => is_creation c || is_boolean c));
    [|apply rotate_transforms].
  intros c ->. reflexivity.
Qed.

(** Reads a journal line by line, the captures with the lines they follow. *)
Ltac track laws :=
  repeat first
    [ apply tracked_done
    | apply tracked_entity;
      [first [left; reflexivity | right; eexists; reflexivity]|]
    | apply tracked_line; [reflexivity|]
    | apply tracked_quiet; [apply (rotate_quiet _ laws)|] ].

Lemma tracking_of_a_run (rt : Runtime) (laws : RuntimeLaws rt)
  (s : CADSurface.t) (ent_type : string) (node : Node) (extents : vec3)
  (inner_world : option vec3) (hex : bool) (n : nat) :
  let r := CADSurface.to_cubit_surface s ent_type node extents inner_world
             hex n in
  match fst r with
  | Return (_, j) => tracked n j (snd r)
  | Raise _ => True
  end.
Proof.
  intros r. subst r.
  destruct s; run_cases node inner_world hex; try exact I;
    repeat match goal with
           | |- context [if ?b then [_] else []] => destruct b
           end;
    rewrite <- ?app_assoc; cbn [List.app]; track laws.
Qed.

(** X7: a run that returns has captured one id for every line of its
    journal that creates a primitive, and one more for the reflected copy
    when the surface is a cone; and the ids follow the entities: every line
    that creates a primitive, and the line that copies the cone's frustum,
    is followed at once by the capture of the next handle, in the order of
    the counter, and no handle is captured anywhere else. *)
Theorem one_id_per_creation (rt : Runtime) (laws : RuntimeLaws rt)
  (s : CADSurface.t) (ent_type : string) (node : Node) (extents : vec3)
  (inner_world : option vec3) (hex : bool) (n m : nat) (ids : string)
  (j : list string) :
  CADSurface.to_cubit_surface s ent_type node extents inner_world hex n
    = (Return (ids, j), m) ->
  m = n + count is_creation j + (if axis_cone s then 1 else 0)
  /\ tracked n j m.
Proof.
  intros H.
  pose proof (creations_of_a_run rt laws s ent_type node extents inner_world
                hex n) as C.
  pose proof (tracking_of_a_run rt laws s ent_type node extents inner_world
                hex n) as T.
  cbv zeta in C, T. rewrite H in C, T. split; [exact C|exact T].
Qed.

Lemma one_id_per_creation_witness :
  3 = 1 + count is_creation
            ["cylinder height 10.0 radius 2.0";
             "#{ id1 = Id(" ++ Sample.quote ++ "body" ++ Sample.quote ++ ") }";
             "brick x 10.0 y 10.0 z 10.0";
             "#{ id2 = Id(" ++ Sample.quote ++ "body" ++ Sample.quote ++ ") }";
             "subtract body { id1 } from body { id2 }"] + 0
  /\ tracked (rt := Sample.cubit) 1
       ["cylinder height 10.0 radius 2.0";
        "#{ id1 = Id(" ++ Sample.quote ++ "body" ++ Sample.quote ++ ") }";
        "brick x 10.0 y 10.0 z 10.0";
        "#{ id2 = Id(" ++ Sample.quote ++ "body" ++ Sample.quote ++ ") }";
        "subtract body { id1 } from body { id2 }"] 3.
Proof.
  exact (one_id_per_creation Sample.cubit sample_laws
           (CADSurface.ZCylinder Sample.z_cylinder) "body" Sample.positive
           Sample.extents10 None false 1 3 "id2" _ eq_refl).
Defined.

(** X8: the id a run returns is one it captured: the first, that of the
    primitive, when the side is [-] and the class is not the general plane;
    the last, that of the clipping solid, in every other case. *)
Theorem returned_id (rt : Runtime) (s : CADSurface.t) (ent_type : string)
  (node : Node) (extents : vec3) (inner_world : option vec3) (hex : bool)
  (n m : nat) (ids : string) (j : list string) :
  CADSurface.to_cubit_surface s ent_type node extents inner_world hex n
    = (Return (ids, j), m) ->
  ids = if (side node =? "-") && negb (general_plane s)
        then idname n else idname (m - 1).
Proof.
  destruct s; cbn [general_plane negb]; run_cases node inner_world hex;
    cbn [andb]; intros H; inversion H; subst; clear H;
    cbn [Nat.sub]; rewrite ?Nat.sub_0_r; reflexivity.
Qed.

Lemma returned_id_witness :
  "id2" = @idname Sample.cubit (3 - 1).
Proof.
  exact (returned_id Sample.cubit (CADSurface.ZCylinder Sample.z_cylinder)
           "body" Sample.positive Sample.extents10 None false 1 3 "id2" _
           eq_refl).
Defined.

(** X9: for every class but the axis planes and a side other than [-], a
    run that returns has written the line that subtracts the first id it
    captured, the primitive's, from the id it returns. *)
Theorem primitive_subtracted_from_result (rt : Runtime) (s : CADSurface.t)
  (ent_type : string) (node : Node) (extents : vec3)
  (inner_world : option vec3) (hex : bool) (n m : nat) (ids : string)
  (j : list string) :
  axis_plane s = false ->
  side node <> "-" ->
  CADSurface.to_cubit_surface s ent_type node extents inner_world hex n
    = (Return (ids, j), m) ->
  In (subtract_cmd (idname n) ids) j.
Proof.
  intros Hp Hside. apply side_is_not in Hside.
  destruct s; try discriminate Hp; unfold_run; rewrite Hside;
    run_cases node inner_world hex;
    intros H; inversion H; subst; clear H;
    repeat first [rewrite in_app_iff | progress cbn [In]]; pick_line.
Qed.

Lemma primitive_subtracted_from_result_witness :
  In "subtract body { id1 } from body { id2 }"
     ["cylinder height 10.0 radius 2.0";
      "#{ id1 = Id(" ++ Sample.quote ++ "body" ++ Sample.quote ++ ") }";
      "brick x 10.0 y 10.0 z 10.0";
      "#{ id2 = Id(" ++ Sample.quote ++ "body" ++ Sample.quote ++ ") }";
      "subtract body { id1 } from body { id2 }"].
Proof.
  refine (primitive_subtracted_from_result Sample.cubit
            (CADSurface.ZCylinder Sample.z_cylinder) "body" Sample.positive
            Sample.extents10 None false 1 3 "id2" _ eq_refl _ eq_refl).
  simpl. discriminate.
Defined.

(** ** The sphere *)

(** X10: the sphere is moved to its centre right after it is created (no
    line when the centre is the origin); for a side other than [-] the
    world brick comes after the move and is itself never moved, and the
    subtraction is the last line.  For side [-] the journal stops after the
    move. *)
Theorem sphere_moved_before_subtract (rt : Runtime) (s : CADSphere.t)
  (ent_type : string) (node : Node) (extents : vec3)
  (inner_world : option vec3) (hex : bool) (n : nat) :
  let ball := idname n in
  let wid := idname (S n) in
  let placed := ([sphere_cmd (CADSphere.r s)] ++ capture (Some ent_type) ball
                   ++ move_part ball (PFloat (CADSphere.x0 s))
                        (PFloat (CADSphere.y0 s)) (PFloat (CADSphere.z0 s)))%list in
  CADSurface.to_cubit_surface (CADSurface.Sphere s) ent_type node extents
    inner_world hex n
  = if side node =? "-" then (Return (ball, placed), S n)
    else (Return (wid,
                  (placed ++ [brick_cmd extents]
                     ++ capture (Some ent_type) wid
                     ++ [subtract_cmd ball wid])%list),
          S (S n)).
Proof.
  intros ball wid placed. subst ball wid placed. unfold move_part.
  unfold_run. destruct (side node =? "-"); cbv beta iota zeta;
    rewrite move_lines, <- ?app_assoc; reflexivity.
Qed.

(** ** Cones *)

(** X11: a cone whose [r2] is not negative gives a journal with one frustum
    line, one [unite], and three lines addressed to the frustum (its shift
    by half the height, its reflected copy, its move to the apex) whatever
    the apex is: the move to the apex is written for an apex at the origin
    too.  The X and Y cones have one rotation line, the Z cone none. *)
Theorem cone_lines (rt : Runtime) (laws : RuntimeLaws rt) (s : CADSurface.t)
  (ent_type : string) (node : Node) (extents : vec3)
  (inner_world : option vec3) (hex : bool) (n : nat) :
  axis_cone s = true ->
  emits s = true ->
  let j := journal (CADSurface.to_cubit_surface s ent_type node extents
                      inner_world hex n) in
  count is_frustum j = 1
  /\ count is_unite j = 1
  /\ count is_body_op j = 3
  /\ count is_rotation j = (if z_cone s then 0 else 1).
Proof.
  intros Hs He j. subst j.
  destruct s; try discriminate Hs; cbn [z_cone]; cbn [emits] in He;
    apply negb_true_iff in He; unfold_run; rewrite He; cbv beta iota zeta;
    destruct (side node =? "-"); cbv beta iota zeta; repeat split;
    eval_counts; reflexivity.
Qed.

Lemma cone_lines_witness :
  let s := CADSurface.ZCone
             {| CADZCone.x0 := 0; CADZCone.y0 := 0; CADZCone.z0 := 0;
                CADZCone.r2 := 1; CADZCone.meta := Sample.meta0 |} in
  let j := journal (CADSurface.to_cubit_surface (rt := Sample.cubit) s "body"
                      Sample.negative Sample.extents10 None false 1) in
  count is_frustum j = 1
  /\ count is_unite j = 1
  /\ count is_body_op j = 3
  /\ count is_rotation j = 0.
Proof.
  exact (cone_lines Sample.cubit sample_laws
           (CADSurface.ZCone
              {| CADZCone.x0 := 0; CADZCone.y0 := 0; CADZCone.z0 := 0;
                 CADZCone.r2 := 1; CADZCone.meta := Sample.meta0 |})
           "body" Sample.negative Sample.extents10 None false 1
           eq_refl eq_refl).
Defined.

(** ** Axis planes *)

Lemma string_app_assoc (a b c : string) : (a ++ b) ++ c = a ++ b ++ c.
Proof. induction a as [|x a IH]; simpl; [reflexivity|]. rewrite IH. reflexivity. Qed.

(** X12: the two flags are opposite: for every node exactly one of
    [CADPlane.lreverse] and the axis planes' [reverse] is the word
    [reverse], and the other is empty; [reverse] is empty unless the side
    is [-]. *)
Theorem reverse_flags_opposite (node : Node) :
  CADPlane.lreverse node ++ CADXPlane.reverse node = "reverse"
  /\ (CADXPlane.reverse node = "reverse" <-> side node = "-")
  /\ (CADPlane.lreverse node = "reverse" <-> side node <> "-")
  /\ CADYPlane.reverse node = CADXPlane.reverse node
  /\ CADZPlane.reverse node = CADXPlane.reverse node.
Proof.
  unfold CADPlane.lreverse, CADXPlane.reverse, CADYPlane.reverse,
    CADZPlane.reverse.
  destruct (side node =? "-") eqn:E.
  - apply String.eqb_eq in E. repeat split; auto; intros H; try discriminate H.
    contradiction.
  - apply String.eqb_neq in E. repeat split; auto; intros H; try discriminate H.
    contradiction.
Qed.

(** X13: an axis plane writes the world brick, captures its id and cuts it
    with one section line; the journals of the two sides are the same up to
    that line, and the line for side [-] is the line of any other side with
    the word [reverse] added.  The brick's id is returned for either
    side. *)
Theorem axis_plane_sides (rt : Runtime) (s : CADSurface.t)
  (ent_type : string) (extents : vec3) (inner_world : option vec3)
  (hex : bool) (n : nat) :
  axis_plane s = true ->
  exists line,
    is_section line = true
    /\ forall node,
         CADSurface.to_cubit_surface s ent_type node extents inner_world hex n
         = (Return (idname n,
                    ([brick_cmd extents] ++ capture (Some ent_type) (idname n)
                       ++ [(line ++ (if side node =? "-" then "reverse"
                                     else EmptyString))%string])%list),
            S n).
Proof.
  intros Hs.
  destruct s; try discriminate Hs;
    [ exists ("section body { " ++ idname n ++ " } with xplane offset "
                ++ float_str (CADXPlane.x0 s) ++ " ")
    | exists ("section body { " ++ idname n ++ " } with yplane offset "
                ++ float_str (CADYPlane.y0 s) ++ " ")
    | exists ("section body { " ++ idname n ++ " } with zplane offset "
                ++ float_str (CADZPlane.z0 s) ++ " ") ];
    (split; [reflexivity|]); intros node; unfold_run;
    unfold CADXPlane.reverse, CADYPlane.reverse, CADZPlane.reverse;
    rewrite !string_app_assoc, <- ?app_assoc; reflexivity.
Qed.

Lemma axis_plane_sides_witness :
  exists line,
    is_section line = true
    /\ forall node,
         CADSurface.to_cubit_surface (rt := Sample.cubit)
           (CADSurface.XPlane Sample.x_plane) "body" node Sample.extents10
           None false 1
         = (Return ("id1",
                    (["brick x 10.0 y 10.0 z 10.0"]
                       ++ Sample.id_capture (Some "body") "id1"
                       ++ [(line ++ (if side node =? "-" then "reverse"
                                     else EmptyString))%string])%list),
            2).
Proof.
  exact (axis_plane_sides Sample.cubit (CADSurface.XPlane Sample.x_plane)
           "body" Sample.extents10 None false 1 eq_refl).
Defined.

(** ** Boundary conditions *)

(** X14: [boundary_condition] gives no line for a transmission boundary and
    one line for any other; the line is a [group] line and no kernel
    operation, and of the ids it keeps what follows the second character,
    so the first two are not read. *)
Theorem boundary_condition_lines (s : CADSurface.t) (ids : string) :
  let lines := CADSurface.boundary_condition s ids in
  List.length lines
    = (if boundary_type (CADSurface.meta_of s) =? "transmission" then 0 else 1)
  /\ forallb (fun c => is_group c && negb (is_kernel c)) lines = true
  /\ (forall a b a' b' rest,
        CADSurface.boundary_condition s (String a (String b rest))
        = CADSurface.boundary_condition s (String a' (String b' rest)))
  /\ (forall rest,
        boundary_type (CADSurface.meta_of s) <> "transmission" ->
        CADSurface.boundary_condition s ("id" ++ rest)
        = ["group " ++ dquote ++ "boundary:"
             ++ boundary_type (CADSurface.meta_of s) ++ dquote
             ++ " add surface " ++ rest]).
Proof.
  intros lines. subst lines. unfold CADSurface.boundary_condition.
  destruct (boundary_type (CADSurface.meta_of s) =? "transmission") eqn:E.
  - repeat split; try reflexivity. intros rest H.
    apply String.eqb_eq in E. contradiction.
  - repeat split; reflexivity.
Qed.

(** ** Indentation *)

Lemma spaces_app (a b : nat) :
  string_of_list_ascii (List.repeat " "%char (a + b))
  = string_of_list_ascii (List.repeat " "%char a)
      ++ string_of_list_ascii (List.repeat " "%char b).
Proof. induction a as [|a IH]; simpl; [reflexivity|]. rewrite IH. reflexivity. Qed.

Lemma spaces_length (a : nat) :
  String.length (string_of_list_ascii (List.repeat " "%char a)) = a.
Proof. induction a as [|a IH]; simpl; [reflexivity|]. rewrite IH. reflexivity. Qed.

(** X15: [indent] gives two spaces per level: its length is twice a level
    that is not negative, nothing is written for a negative level, and the
    indent of a sum of two levels that are not negative is the two indents
    one after the other. *)
Theorem indent_levels (a b : Z) :
  (0 <= a)%Z ->
  (0 <= b)%Z ->
  String.length (indent a) = 2 * Z.to_nat a
  /\ indent (a + b) = indent a ++ indent b
  /\ indent (- a) = EmptyString
  /\ indent (a + 1) = indent a ++ "  ".
Proof.
  intros Ha Hb. unfold indent, py_spaces.
  assert (A : forall x y, (0 <= x)%Z -> (0 <= y)%Z ->
              string_of_list_ascii (List.repeat " "%char (Z.to_nat (2 * (x + y))))
              = string_of_list_ascii (List.repeat " "%char (Z.to_nat (2 * x)))
                  ++ string_of_list_ascii (List.repeat " "%char (Z.to_nat (2 * y)))).
  { intros x y Hx Hy. rewrite <- spaces_app. f_equal. f_equal. lia. }
  split; [rewrite spaces_length; lia|].
  split; [apply A; assumption|].
  split; [replace (Z.to_nat (2 * - a)) with 0 by lia; reflexivity|].
  rewrite A by lia. reflexivity.
Qed.

Lemma indent_levels_witness :
  String.length (indent 2) = 2 * Z.to_nat 2
  /\ indent (2 + 3) = indent 2 ++ indent 3
  /\ indent (- 2) = EmptyString
  /\ indent (2 + 1) = indent 2 ++ "  ".
Proof. apply (indent_levels 2 3); lia. Defined.

(** ** Not-a-number *)

Lemma nan_is_unequal (x y : float) : is_nan x = true -> (x =? y)%float = false.
Proof.
  unfold is_nan. intros H. apply negb_true_iff in H.
  rewrite eqb_spec in H. rewrite eqb_spec.
  destruct (Prim2SF x) as [sx|sx| |sx mx ex]; try reflexivity.
  - discriminate H.
  - destruct sx; discriminate H.
  - exfalso. unfold SFeqb, SFcompare in H.
    rewrite Z.compare_refl, Pos.compare_cont_refl in H.
    destruct sx; simpl in H; discriminate H.
Qed.

(** X16: a torus whose minor radius [b] is not a number never passes
    [check_coeffs], whatever [c] is and even when [c] is the same value:
    [b != c] holds of every comparison with a NaN, so emission raises
    before it writes a line or captures an id. *)
Theorem nan_torus_rejected (rt : Runtime) (s : CADSurface.t) (t : CADTorus.t)
  (ent_type : string) (node : Node) (extents : vec3)
  (inner_world : option vec3) (hex : bool) (n : nat) :
  as_torus s = Some t ->
  is_nan (CADTorus.b t) = true ->
  CADSurface.to_cubit_surface s ent_type node extents inner_world hex n
  = (Raise (ValueError "Only torri with constant minor radii are supported"),
     n).
Proof.
  intros Hs Hb. apply (nan_is_unequal _ (CADTorus.c t)) in Hb.
  destruct s; try discriminate Hs; injection Hs as ->; unfold_run;
    rewrite Hb; reflexivity.
Qed.

Lemma nan_torus_rejected_witness :
  CADSurface.to_cubit_surface (rt := Sample.cubit)
    (CADSurface.XTorus (Sample.torus nan nan)) "body" Sample.positive
    Sample.extents10 None false 1
  = (Raise (ValueError "Only torri with constant minor radii are supported"),
     1).
Proof.
  exact (nan_torus_rejected Sample.cubit
           (CADSurface.XTorus (Sample.torus nan nan)) (Sample.torus nan nan)
           "body" Sample.positive Sample.extents10 None false 1
           eq_refl eq_refl).
Defined.

(** ** The last step of a cylinder or a torus *)

Lemma placement_of_a_run (rt : Runtime) (s : CADSurface.t) (ent_type : string)
  (node : Node) (extents : vec3) (inner_world : option vec3) (hex : bool)
  (n : nat) :
  cylinder_family s || axis_torus s = true ->
  match CADSurface.to_cubit_surface s ent_type node extents inner_world hex n
  with
  | (Return (ids, j), _) =>
      exists pre,
        j = (pre ++ direction_part s ids
               ++ move_part ids (fst (fst (placement s)))
                    (snd (fst (placement s))) (snd (placement s)))%list
  | (Raise _, _) => True
  end.
Proof.
  intros Hs.
  destruct s; try discriminate Hs;
    cbn [direction_part placement torus_centre fst snd];
    unfold move_part; unfold_run; cbv beta iota zeta;
    repeat match goal with
           | |- context [(CADTorus.b ?t =? CADTorus.c ?t)%float] =>
               destruct (CADTorus.b t =? CADTorus.c t)%float
           | |- context [side node =? "-"] => destruct (side node =? "-")
           | |- context [match inner_world with _ => _ end] => destruct inner_world
           | |- context [if hex then _ else _] => destruct hex
           end;
    cbv beta iota zeta delta [negb]; rewrite ?move_lines; try exact I;
    first [ eexists; symmetry; apply app_assoc | eexists; reflexivity ].
Qed.

(** X17: when a cylinder or a torus run returns, the journal ends with the
    placement of the very solid whose id is returned: for the general
    cylinder the lines of [rotate] for its direction and then the move to
    its centre, for the other classes the move alone; an axis-aligned
    cylinder is moved by [0] along its own axis, and a solid whose move is
    all zero gets no move line. *)
Theorem placed_last (rt : Runtime) (s : CADSurface.t) (ent_type : string)
  (node : Node) (extents : vec3) (inner_world : option vec3) (hex : bool)
  (n m : nat) (ids : string) (j : list string) :
  cylinder_family s || axis_torus s = true ->
  CADSurface.to_cubit_surface s ent_type node extents inner_world hex n
    = (Return (ids, j), m) ->
  exists pre,
    j = (pre ++ direction_part s ids
           ++ move_part ids (fst (fst (placement s))) (snd (fst (placement s)))
                (snd (placement s)))%list.
Proof.
  intros Hs H.
  pose proof (placement_of_a_run rt s ent_type node extents inner_world hex n
                Hs) as P.
  rewrite H in P. exact P.
Qed.

Lemma placed_last_witness :
  exists pre,
    ["torus major radius 5.0 minor radius 1.0";
     "#{ id1 = Id(" ++ Sample.quote ++ "body" ++ Sample.quote ++ ") }";
     "body { id1 } move 1.0 2.0 3.0"]
    = (pre ++ [] ++ ["body { id1 } move 1.0 2.0 3.0"])%list.
Proof.
  exact (placed_last Sample.cubit (CADSurface.ZTorus (Sample.torus 1 1))
           "body" Sample.negative Sample.extents10 None false 1 2 "id1" _
           eq_refl eq_refl).
Defined.
